(** * Stripe payments demo: the Express routes of [server/node/routes.js]

    A shallow embedding of the request handlers of [routes.js] and the
    properties of the payment-intent orchestration and of the webhook
    dispatcher.

    JavaScript numbers are IEEE 754 binary64 values: they are modelled by
    Rocq's primitive floats, whose operations round exactly like the ones of
    the JavaScript engine.  Request bodies and webhook events are dynamically
    typed JSON data and are modelled by a type of JavaScript values; reading
    a property of [undefined] or [null] throws, as in the engine.

    The collaborators that [routes.js] requires ([stripe], [./inventory],
    [./config]) and the coercions of the engine that parse and print numbers
    are parameters of the development, bundled in the class [Env]. *)

From Stdlib Require Import List String Bool Floats Arith ZArith Lia.
From Stdlib Require QArith.
Import ListNotations.

#[local] Set Warnings "-register-all".

Open Scope string_scope.
Open Scope list_scope.

(** ** JavaScript values *)

Inductive value : Type :=
| VUndefined
| VNull
| VBool (b : bool)
| VNum (n : float)
| VStr (s : string)
| VArr (elems : list value)
| VObj (props : list (string * value)).

(** What a handler can throw: a [TypeError] of the engine (reading or calling
    property [prop] of [base] failed), or the error object with which a
    collaborator rejected a call. *)
Inductive error : Type :=
| TypeError (base : value) (prop : string)
| Rejected (message : string).

Inductive result (A : Type) : Type :=
| Ok (a : A)
| Throw (e : error).

Arguments Ok {A} a.
Arguments Throw {A} e.

(** The own property [k] of an object literal; the first binding of a key is
    the one the object holds. *)
Fixpoint own_prop (k : string) (props : list (string * value)) : value :=
  match props with
  | [] => VUndefined
  | (k', v) :: rest => if String.eqb k k' then v else own_prop k rest
  end.

(** [base.k] for the property names that [routes.js] reads ([object],
    [status], [metadata], [paymentIntent], [id], [type], [data], [price],
    [quantity], ...): none of them is a property of a primitive or of an
    array, so only objects hold them, and [undefined] and [null] throw. *)
Definition get (base : value) (k : string) : result value :=
  match base with
  | VUndefined | VNull => Throw (TypeError base k)
  | VObj props => Ok (own_prop k props)
  | VBool _ | VNum _ | VStr _ | VArr _ => Ok VUndefined
  end.

(** ToBoolean. *)
Definition truthy (v : value) : bool :=
  match v with
  | VUndefined | VNull => false
  | VBool b => b
  | VNum n => negb (PrimFloat.eqb n 0 || PrimFloat.is_nan n)
  | VStr s => negb (String.eqb s "")
  | VArr _ | VObj _ => true
  end.

(** [v === w].  Two objects are equal when they are the same reference: the
    operands compared in [routes.js] come from different sources (a literal
    or the catalog on one side, a request on the other), so they never are. *)
Definition strict_eq (v w : value) : bool :=
  match v, w with
  | VUndefined, VUndefined => true
  | VNull, VNull => true
  | VBool a, VBool b => Bool.eqb a b
  | VNum a, VNum b => PrimFloat.eqb a b
  | VStr a, VStr b => String.eqb a b
  | _, _ => false
  end.

(** SameValueZero, the comparison of [Array.prototype.includes]. *)
Definition same_value_zero (v w : value) : bool :=
  match v, w with
  | VNum a, VNum b => PrimFloat.eqb a b || (PrimFloat.is_nan a && PrimFloat.is_nan b)
  | _, _ => strict_eq v w
  end.

Definition includes (l : list value) (v : value) : bool :=
  existsb (fun x => same_value_zero x v) l.

(** The receiver of [items.reduce(...)]: an array, or a [TypeError]. *)
Definition as_array (v : value) : result (list value) :=
  match v with
  | VArr l => Ok l
  | _ => Throw (TypeError v "reduce")
  end.

(** ** Coercions of the engine

    Parsing a string as a number, printing a number, and the conversion of an
    object to a primitive (which calls the object's [valueOf] and [toString]
    and can throw) are the engine's; the rest of ToNumber and ToString is
    written out. *)
Record Engine : Type := {
  string_to_number : string -> float;
  object_to_number : value -> result float;
  number_to_string : float -> string;
  object_to_string : value -> result string;
  type_error_message : value -> string -> string
}.

Definition to_number (js : Engine) (v : value) : result float :=
  match v with
  | VUndefined => Ok nan
  | VNull => Ok 0%float
  | VBool b => Ok (if b then 1%float else 0%float)
  | VNum n => Ok n
  | VStr s => Ok (string_to_number js s)
  | VArr _ | VObj _ => object_to_number js v
  end.

Definition to_string (js : Engine) (v : value) : result string :=
  match v with
  | VUndefined => Ok "undefined"
  | VNull => Ok "null"
  | VBool b => Ok (if b then "true" else "false")
  | VNum n => Ok (number_to_string js n)
  | VStr s => Ok s
  | VArr _ | VObj _ => object_to_string js v
  end.

(** [err.message]. *)
Definition message (js : Engine) (e : error) : string :=
  match e with
  | Rejected m => m
  | TypeError base prop => type_error_message js base prop
  end.

(** ** Resources of the provider and of the catalog *)

Record payment_error : Type := { pe_message : string }.

(** A PaymentIntent as stripe-node resolves it; its [status] is a string. *)
Record payment_intent : Type := {
  pi_id : string;
  pi_status : string;
  pi_last_payment_error : option payment_error
}.

Record session : Type := { session_url : value }.

Record sku : Type := { sku_id : string; sku_price : float }.

(** A product of the listing; [skus] is the array [product.skus.data]. *)
Record product : Type := { skus : list sku }.

(** ** Requests, responses and effects *)

Record request : Type := {
  req_headers : list (string * value);
  req_rawBody : value;
  req_body : value;
  req_params_id : value
}.

Inductive body : Type :=
| StatusText
| JsonPaymentIntent (paymentIntent : payment_intent)
| JsonError (error_message : string)
| JsonUrl (url : value)
| JsonStatus (status : string) (last_payment_error : option string).

Record response : Type := { res_status : nat; res_body : body }.

(** The calls of the stripe client that go to the provider. *)
Inductive call : Type :=
| PaymentIntentsCreate (params : value)
| PaymentIntentsUpdate (id : value) (params : value)
| PaymentIntentsRetrieve (id : value)
| PaymentIntentsConfirm (id : value) (params : value)
| PaymentIntentsCancel (id : value)
| CheckoutSessionsCreate (params : value).

(** The trace of a run: what a handler does besides answering, in the order
    it does it, and after a call that the provider rejects, the error with
    which it rejects it. *)
Inductive effect : Type :=
| ConsoleLog (text : string)
| ConsoleLogError (e : error)
| StripeCall (c : call)
| StripeError (e : error)
| ProductsList.

(** ** The monad of a handler

    A computation runs against the state of the collaborators, of type [S]:
    it returns a value or throws, the next state, and the effects it had. *)
Section Monad.

Variable S : Type.

Definition M (A : Type) : Type := S -> result A * S * list effect.

Definition ret {A : Type} (a : A) : M A := fun s => (Ok a, s, []).

Definition throw {A : Type} (e : error) : M A := fun s => (Throw e, s, []).

Definition bind {A B : Type} (m : M A) (k : A -> M B) : M B :=
  fun s =>
    match m s with
    | (Ok a, s1, t1) =>
        match k a s1 with
        | (r, s2, t2) => (r, s2, t1 ++ t2)
        end
    | (Throw e, s1, t1) => (Throw e, s1, t1)
    end.

(** A synchronous expression of the engine that can throw. *)
Definition lift {A : Type} (r : result A) : M A := fun s => (r, s, []).

Definition emit (e : effect) : M unit := fun s => (Ok tt, s, [e]).

(** An awaited call [c] of the stripe client, answered by [f]. *)
Definition await_stripe {A : Type} (c : call) (f : S -> result A * S) : M A :=
  fun s =>
    match f s with
    | (Ok a, s1) => (Ok a, s1, [StripeCall c])
    | (Throw e, s1) => (Throw e, s1, [StripeCall c; StripeError e])
    end.

(** The awaited [products.list()], answered by [f]. *)
Definition await_products {A : Type} (f : S -> result A * S) : M A :=
  fun s => match f s with (r, s1) => (r, s1, [ProductsList]) end.

(** [try { m } catch (err) { h err }]. *)
Definition try_catch {A : Type} (m : M A) (h : error -> M A) : M A :=
  fun s =>
    match m s with
    | (Ok a, s1, t1) => (Ok a, s1, t1)
    | (Throw e, s1, t1) =>
        match h e s1 with
        | (r, s2, t2) => (r, s2, t1 ++ t2)
        end
    end.

End Monad.

Arguments ret {S A} a.
Arguments throw {S A} e.
Arguments bind {S A B} m k.
Arguments lift {S A} r.
Arguments emit {S} e.
Arguments await_stripe {S A} c f.
Arguments await_products {S A} f.
Arguments try_catch {S A} m h.

Declare Scope js_scope.
Delimit Scope js_scope with js.

Notation "x <- m ;; k" := (bind m (fun x => k))
  (at level 61, m at next level, right associativity) : js_scope.
Notation "m ;; k" := (bind m (fun _ => k))
  (at level 61, right associativity) : js_scope.

Open Scope js_scope.

(** Sequencing of synchronous expressions that can throw. *)
Notation "'let?' x ':=' e 'in' k" :=
  (match e with Ok x => k | Throw err => Throw err end)
  (at level 10, x name, e at level 100, k at level 200) : js_scope.

(** ** The collaborators of [routes.js] *)

(** [./config]: the webhook signing secret (an environment variable, absent
    when it is not set) and the default list of payment methods. *)
Record Config : Type := {
  stripe_webhookSecret : option string;
  paymentMethods : list string
}.

(** The stripe client.  Every call to the provider resolves or rejects and
    moves the state of the provider; [webhooks.constructEvent] is a local
    computation on the raw body, the signature header and the secret. *)
Record Stripe (S : Type) : Type := {
  paymentIntents_create : value -> S -> result payment_intent * S;
  paymentIntents_update : value -> value -> S -> result payment_intent * S;
  paymentIntents_retrieve : value -> S -> result payment_intent * S;
  paymentIntents_confirm : value -> value -> S -> result payment_intent * S;
  paymentIntents_cancel : value -> S -> result payment_intent * S;
  checkout_sessions_create : value -> S -> result session * S;
  webhooks_constructEvent : value -> value -> string -> result value
}.

Arguments paymentIntents_create {S} _ _ _.
Arguments paymentIntents_update {S} _ _ _ _.
Arguments paymentIntents_retrieve {S} _ _ _.
Arguments paymentIntents_confirm {S} _ _ _ _.
Arguments paymentIntents_cancel {S} _ _ _.
Arguments checkout_sessions_create {S} _ _ _.
Arguments webhooks_constructEvent {S} _ _ _ _.

(** [./inventory]: the product listing and the shipping costs. *)
Record Inventory (S : Type) : Type := {
  products_list : S -> result (list product) * S;
  products_getShippingCost : value -> result float
}.

Arguments products_list {S} _ _.
Arguments products_getShippingCost {S} _ _.

Class Env : Type := {
  state : Type;
  config : Config;
  stripe : Stripe state;
  products : Inventory state;
  js : Engine
}.

(** A computation of a handler against the collaborators of [E].  A handler
    is a [run response]: its result is the response it sent, or the exception
    that left it uncaught, and then no response was sent. *)
Definition run {E : Env} (A : Type) : Type := M state A.

Definition outcome {S A : Type} (r : result A * S * list effect) : result A := fst (fst r).

Definition final {S A : Type} (r : result A * S * list effect) : S := snd (fst r).

Definition effects {S A : Type} (r : result A * S * list effect) : list effect := snd r.

Definition YOUR_DOMAIN : string := "https://brands.tempoplatform.com".

Definition sendStatus {S : Type} (code : nat) : M S response :=
  ret {| res_status := code; res_body := StatusText |}.

Definition json {S : Type} (code : nat) (b : body) : M S response :=
  ret {| res_status := code; res_body := b |}.

(** [if (config.stripe.webhookSecret)]. *)
Definition configured_secret (c : Config) : option string :=
  match stripe_webhookSecret c with
  | Some secret => if truthy (VStr secret) then Some secret else None
  | None => None
  end.

(** [v * w]. *)
Definition js_mul (e : Engine) (v w : value) : result float :=
  let? a := to_number e v in
  let? b := to_number e w in
  Ok (a * b)%float.

Section Routes.

Context {E : Env}.

(** *** [calculatePaymentAmount] *)

(** [skus.filter(sku => sku.id === item.parent)]. *)
Fixpoint filter_skus (item : value) (l : list sku) : result (list sku) :=
  match l with
  | [] => Ok []
  | s :: rest =>
      let? parent := get item "parent" in
      let? found := filter_skus item rest in
      Ok (if strict_eq (VStr (sku_id s)) parent then s :: found else found)
  end.

(** The callback of [items.reduce]: [a + sku.price * item.quantity], where
    [sku] is the first sku of the filtered list, [undefined] if it is empty. *)
Definition add_item (all_skus : list sku) (a : float) (item : value) : result float :=
  let? found := filter_skus item all_skus in
  let? price :=
    match found with
    | s :: _ => Ok (sku_price s)
    | [] => Throw (TypeError VUndefined "price")
    end in
  let? quantity := get item "quantity" in
  let? q := to_number js quantity in
  Ok (a + price * q)%float.

Fixpoint reduce (f : float -> value -> result float) (items : list value) (a : float)
  : result float :=
  match items with
  | [] => Ok a
  | item :: rest => let? a' := f a item in reduce f rest a'
  end.

(** [productList.data.reduce((a, product) => [...a, ...product.skus.data], [])]. *)
Definition listing_skus (productList : list product) : list sku :=
  fold_left (fun a p => a ++ skus p) productList [].

Definition calculatePaymentAmount (items : value) : run float :=
  productList <- await_products (products_list products) ;;
  let all_skus := listing_skus productList in
  its <- lift (as_array items) ;;
  lift (reduce (add_item all_skus) its 0%float).

(** *** [POST /payment_intents] *)

Definition initPaymentMethods : list string :=
  filter (fun paymentMethod => negb (String.eqb paymentMethod "au_becs_debit"))
         (paymentMethods config).

(** The object literal passed to [stripe.paymentIntents.create]. *)
Definition create_params (amount : float)
  (currency productName campaignId productId quantity : value) : value :=
  VObj [("amount", VNum amount);
        ("currency", currency);
        ("description", productName);
        ("metadata", VObj [("campaign_id", campaignId);
                           ("product_id", productId);
                           ("quantity", quantity)]);
        ("payment_method_types", VArr (map VStr initPaymentMethods))].

Definition post_payment_intents (req : request) : run response :=
  currency <- lift (get (req_body req) "currency") ;;
  price <- lift (get (req_body req) "price") ;;
  quantity <- lift (get (req_body req) "quantity") ;;
  productName <- lift (get (req_body req) "productName") ;;
  campaignId <- lift (get (req_body req) "campaignId") ;;
  productId <- lift (get (req_body req) "productId") ;;
  try_catch
    (pq <- lift (js_mul js price quantity) ;;
     amount <- lift (js_mul js (VNum pq) (VNum 100)) ;;
     let params := create_params amount currency productName campaignId productId quantity in
     paymentIntent <- await_stripe (PaymentIntentsCreate params)
                            (paymentIntents_create stripe params) ;;
     json 200 (JsonPaymentIntent paymentIntent))
    (fun err =>
       emit (ConsoleLogError err) ;;
       json 500 (JsonError (message js err))).

(** *** [POST /payment_intents/:id/update_quantity] *)

(** The object literal passed to [stripe.paymentIntents.update]. *)
Definition update_quantity_params (amount : float)
  (campaignId productId quantity : value) : value :=
  VObj [("amount", VNum amount);
        ("metadata", VObj [("campaign_id", campaignId);
                           ("product_id", productId);
                           ("quantity", quantity)])].

Definition post_update_quantity (req : request) : run response :=
  price <- lift (get (req_body req) "price") ;;
  quantity <- lift (get (req_body req) "quantity") ;;
  campaignId <- lift (get (req_body req) "campaignId") ;;
  productId <- lift (get (req_body req) "productId") ;;
  try_catch
    (pq <- lift (js_mul js price quantity) ;;
     amount <- lift (js_mul js (VNum pq) (VNum 100)) ;;
     let params := update_quantity_params amount campaignId productId quantity in
     paymentIntent <- await_stripe (PaymentIntentsUpdate (req_params_id req) params)
                            (paymentIntents_update stripe (req_params_id req) params) ;;
     json 200 (JsonPaymentIntent paymentIntent))
    (fun err =>
       emit (ConsoleLogError err) ;;
       json 500 (JsonError (message js err))).

(** *** [POST /create-checkout-session] *)

Definition post_create_checkout_session (req : request) : run response :=
  currency <- lift (get (req_body req) "currency") ;;
  price <- lift (get (req_body req) "price") ;;
  quantity <- lift (get (req_body req) "quantity") ;;
  productName <- lift (get (req_body req) "productName") ;;
  campaignId <- lift (get (req_body req) "campaignId") ;;
  productId <- lift (get (req_body req) "productId") ;;
  imageUrl <- lift (get (req_body req) "imageUrl") ;;
  productIndex <- lift (get (req_body req) "productIndex") ;;
  unit_amount <- lift (js_mul js price (VNum 100)) ;;
  campaign <- lift (to_string js campaignId) ;;
  index <- lift (to_string js productIndex) ;;
  let params := VObj [
    ("line_items", VArr [VObj [
      ("price_data", VObj [
        ("currency", currency);
        ("product_data", VObj [
          ("name", productName);
          ("images", VArr [imageUrl]);
          ("metadata", VObj [("campaign_id", campaignId);
                             ("product_id", productId);
                             ("quantity", quantity)])]);
        ("unit_amount", VNum unit_amount)]);
      ("quantity", quantity)]]);
    ("shipping_address_collection", VObj [("allowed_countries", VArr [VStr "US"])]);
    ("mode", VStr "payment");
    ("success_url", VStr (YOUR_DOMAIN ++ "/thank-you")%string);
    ("cancel_url",
     VStr (YOUR_DOMAIN ++ "/campaign/" ++ campaign ++ "/product/" ++ index)%string)] in
  session <- await_stripe (CheckoutSessionsCreate params)
                   (checkout_sessions_create stripe params) ;;
  json 200 (JsonUrl (session_url session)).

(** *** [POST /payment_intents/:id/shipping_change] *)

Definition post_shipping_change (req : request) : run response :=
  items <- lift (get (req_body req) "items") ;;
  shippingOption <- lift (get (req_body req) "shippingOption") ;;
  amount <- calculatePaymentAmount items ;;
  option_id <- lift (get shippingOption "id") ;;
  cost <- lift (products_getShippingCost products option_id) ;;
  let amount := (amount + cost)%float in
  try_catch
    (let params := VObj [("amount", VNum amount)] in
     paymentIntent <- await_stripe (PaymentIntentsUpdate (req_params_id req) params)
                            (paymentIntents_update stripe (req_params_id req) params) ;;
     json 200 (JsonPaymentIntent paymentIntent))
    (fun err => json 500 (JsonError (message js err))).

(** *** [POST /payment_intents/:id/update_currency] *)

Definition post_update_currency (req : request) : run response :=
  currency <- lift (get (req_body req) "currency") ;;
  payment_methods <- lift (get (req_body req) "payment_methods") ;;
  try_catch
    (let params := VObj [("currency", currency);
                         ("payment_method_types", payment_methods)] in
     paymentIntent <- await_stripe (PaymentIntentsUpdate (req_params_id req) params)
                            (paymentIntents_update stripe (req_params_id req) params) ;;
     json 200 (JsonPaymentIntent paymentIntent))
    (fun err => json 500 (JsonError (message js err))).

(** *** [POST /webhook] *)

(** The event of a delivery: with a signing secret, the event that
    [constructEvent] builds from the raw body and the signature header, and
    a 400 answer when it throws; without one, the parsed body as it is.
    The result is the answer already sent, or [data] and [eventType]. *)
Definition webhook_event (req : request) : run (response + value * value) :=
  match configured_secret config with
  | Some secret =>
      let signature := own_prop "stripe-signature" (req_headers req) in
      r <- try_catch
             (event <- lift (webhooks_constructEvent stripe (req_rawBody req) signature secret) ;;
              ret (inr event))
             (fun err =>
                emit (ConsoleLog "⚠️  Webhook signature verification failed.") ;;
                res <- sendStatus 400 ;;
                ret (inl res)) ;;
      match r with
      | inl res => ret (inl res)
      | inr event =>
          data <- lift (get event "data") ;;
          eventType <- lift (get event "type") ;;
          ret (inr (data, eventType))
      end
  | None =>
      data <- lift (get (req_body req) "data") ;;
      eventType <- lift (get (req_body req) "type") ;;
      ret (inr (data, eventType))
  end.

(** Monitor [payment_intent.succeeded] and [payment_intent.payment_failed]. *)
Definition monitor_payment_intent (object eventType : value) : run unit :=
  kind <- lift (get object "object") ;;
  if strict_eq kind (VStr "payment_intent") then
    let paymentIntent := object in
    if strict_eq eventType (VStr "payment_intent.succeeded") then
      id <- lift (get paymentIntent "id") ;;
      id <- lift (to_string js id) ;;
      emit (ConsoleLog ("🔔  Webhook received! Payment for PaymentIntent "
                        ++ id ++ " succeeded.")%string)
    else if strict_eq eventType (VStr "payment_intent.payment_failed") then
      last_payment_error <- lift (get paymentIntent "last_payment_error") ;;
      payment_method <- lift (get last_payment_error "payment_method") ;;
      paymentSourceOrMethod <-
        (if truthy payment_method then
           last_payment_error <- lift (get paymentIntent "last_payment_error") ;;
           lift (get last_payment_error "payment_method")
         else
           last_payment_error <- lift (get paymentIntent "last_payment_error") ;;
           lift (get last_payment_error "source")) ;;
      o <- lift (get paymentSourceOrMethod "object") ;;
      o <- lift (to_string js o) ;;
      i <- lift (get paymentSourceOrMethod "id") ;;
      i <- lift (to_string js i) ;;
      t <- lift (get paymentSourceOrMethod "type") ;;
      t <- lift (to_string js t) ;;
      id <- lift (get paymentIntent "id") ;;
      id <- lift (to_string js id) ;;
      emit (ConsoleLog ("🔔  Webhook received! Payment on " ++ o ++ " " ++ i
                        ++ " of type " ++ t ++ " for PaymentIntent " ++ id
                        ++ " failed.")%string)
    else ret tt
  else ret tt.

(** [object.object === 'source' && cond && object.metadata.paymentIntent],
    with [cond] the test on [object.status]; the operands are evaluated from
    left to right, and only as far as needed. *)
Definition source_event (object : value) (cond : value -> bool) : result bool :=
  let? kind := get object "object" in
  if strict_eq kind (VStr "source") then
    let? status := get object "status" in
    if cond status then
      let? metadata := get object "metadata" in
      let? paymentIntent := get metadata "paymentIntent" in
      Ok (truthy paymentIntent)
    else Ok false
  else Ok false.

(** Monitor [source.chargeable]: the result is the 403 answer when the
    handler returns from this block.  The status of the retrieved intent is a
    string, and [!=] on two strings is their inequality. *)
Definition monitor_source_chargeable (object : value) : run (option response) :=
  test <- lift (source_event object (fun status => strict_eq status (VStr "chargeable"))) ;;
  if test then
    let source := object in
    id <- lift (get source "id") ;;
    id <- lift (to_string js id) ;;
    emit (ConsoleLog ("🔔  Webhook received! The source " ++ id ++ " is chargeable.")%string) ;;
    metadata <- lift (get source "metadata") ;;
    intent_id <- lift (get metadata "paymentIntent") ;;
    paymentIntent <- await_stripe (PaymentIntentsRetrieve intent_id)
                           (paymentIntents_retrieve stripe intent_id) ;;
    if negb (String.eqb (pi_status paymentIntent) "requires_payment_method") then
      res <- sendStatus 403 ;;
      ret (Some res)
    else
      source_id <- lift (get source "id") ;;
      let params := VObj [("source", source_id)] in
      await_stripe (PaymentIntentsConfirm (VStr (pi_id paymentIntent)) params)
            (paymentIntents_confirm stripe (VStr (pi_id paymentIntent)) params) ;;
      ret None
  else ret None.

(** Monitor [source.failed] and [source.canceled]. *)
Definition monitor_source_failed (object : value) : run unit :=
  test <- lift (source_event object (includes [VStr "failed"; VStr "canceled"])) ;;
  if test then
    let source := object in
    id <- lift (get source "id") ;;
    id <- lift (to_string js id) ;;
    emit (ConsoleLog ("🔔  The source " ++ id ++ " failed or timed out.")%string) ;;
    metadata <- lift (get source "metadata") ;;
    intent_id <- lift (get metadata "paymentIntent") ;;
    await_stripe (PaymentIntentsCancel intent_id)
          (paymentIntents_cancel stripe intent_id) ;;
    ret tt
  else ret tt.

(** The three monitors in turn, then the 200 answer to Stripe. *)
Definition dispatch (object eventType : value) : run response :=
  monitor_payment_intent object eventType ;;
  answered <- monitor_source_chargeable object ;;
  match answered with
  | Some res => ret res
  | None =>
      monitor_source_failed object ;;
      sendStatus 200
  end.

Definition post_webhook (req : request) : run response :=
  ev <- webhook_event req ;;
  match ev with
  | inl res => ret res
  | inr (data, eventType) =>
      object <- lift (get data "object") ;;
      dispatch object eventType
  end.

(** *** [GET /payment_intents/:id/status] *)

Definition get_status (req : request) : run response :=
  paymentIntent <- await_stripe (PaymentIntentsRetrieve (req_params_id req))
                         (paymentIntents_retrieve stripe (req_params_id req)) ;;
  let payload :=
    match pi_last_payment_error paymentIntent with
    | Some err => JsonStatus (pi_status paymentIntent) (Some (pe_message err))
    | None => JsonStatus (pi_status paymentIntent) None
    end in
  json 200 payload.

End Routes.

(** ** Reading the effects of a run *)

(** The calls that change a PaymentIntent at the provider: all but
    [retrieve]. *)
Definition mutates (e : effect) : bool :=
  match e with
  | StripeCall (PaymentIntentsRetrieve _) => false
  | StripeCall _ => true
  | ConsoleLog _ | ConsoleLogError _ | StripeError _ | ProductsList => false
  end.

Definition is_stripe_call (e : effect) : bool :=
  match e with
  | StripeCall _ => true
  | ConsoleLog _ | ConsoleLogError _ | StripeError _ | ProductsList => false
  end.

Definition is_stripe_error (e : effect) : bool :=
  match e with
  | StripeError _ => true
  | ConsoleLog _ | ConsoleLogError _ | StripeCall _ | ProductsList => false
  end.

(** The number of effects of a trace that satisfy [P]. *)
Definition count (P : effect -> bool) (t : list effect) : nat :=
  List.length (filter P t).

(** The number of calls of a trace that change an intent. *)
Definition mutations (t : list effect) : nat := count mutates t.

(** A computation none of whose effects satisfies [P]. *)
Definition quiet {E : Env} {A : Type} (P : effect -> bool) (m : run A) : Prop :=
  forall s, count P (effects (m s)) = 0.

(** A computation with at most [n] effects that satisfy [P]. *)
Definition at_most {E : Env} {A : Type} (P : effect -> bool) (n : nat) (m : run A) : Prop :=
  forall s, count P (effects (m s)) <= n.

(** A computation that does not catch the rejections of the provider: when
    the provider rejects one of its calls, the rejection is the last effect
    and the error is thrown on. *)
Definition propagates {E : Env} {A : Type} (m : run A) : Prop :=
  forall s e,
    In (StripeError e) (effects (m s)) ->
    outcome (m s) = Throw e /\ exists t, effects (m s) = t ++ [StripeError e].

(** A handler that surfaces the rejections of the provider: when the
    provider rejects one of its calls, the answer is 500 with the message of
    the error as the [error] of its body. *)
Definition surfaces {E : Env} (m : run response) : Prop :=
  forall s e,
    In (StripeError e) (effects (m s)) ->
    outcome (m s) = Ok {| res_status := 500; res_body := JsonError (message js e) |}.

(** A delivery carries [object] under the event type [eventType] when
    reading its event succeeds, with these as [data.object] and [type]. *)
Definition delivers {E : Env} (req : request) (object eventType : value) : Prop :=
  exists data,
    (forall s, webhook_event req s = (Ok (inr (data, eventType)), s, []))
    /\ get data "object" = Ok object.

(** An item of a basket resolves to the sku [sk] with the quantity [q]:
    [sk] is the first sku of the listing whose id is the item's [parent]. *)
Definition resolves {E : Env} (all_skus : list sku) (item : value) (line : sku * float) : Prop :=
  exists parent quantity,
    get item "parent" = Ok parent
    /\ find (fun s => strict_eq (VStr (sku_id s)) parent) all_skus = Some (fst line)
    /\ get item "quantity" = Ok quantity
    /\ to_number js quantity = Ok (snd line).

(** An item resolves to no sku: no sku of the listing has its [parent]. *)
Definition unresolved (all_skus : list sku) (item : value) : Prop :=
  forall parent,
    get item "parent" = Ok parent ->
    find (fun s => strict_eq (VStr (sku_id s)) parent) all_skus = None.

(** The sum of price times quantity over the lines of a basket, accumulated
    from 0 in the order of the basket. *)
Definition basket_total (lines : list (sku * float)) : float :=
  fold_left (fun a line => (a + sku_price (fst line) * snd line)%float) lines 0%float.

(** ** A provider double and sample requests *)

Definition demo_engine : Engine := {|
  string_to_number := fun _ => nan;
  object_to_number := fun _ => Ok nan;
  number_to_string := fun _ => "0";
  object_to_string := fun _ => Ok "[object Object]";
  type_error_message := fun _ prop => ("Cannot read property " ++ prop)%string
|}.

Definition lookup_intent (id : value) (store : list payment_intent) : option payment_intent :=
  match id with
  | VStr i => find (fun p => String.eqb (pi_id p) i) store
  | _ => None
  end.

Definition set_status (id status : string) (store : list payment_intent)
  : list payment_intent :=
  map (fun p =>
         if String.eqb (pi_id p) id
         then {| pi_id := pi_id p; pi_status := status;
                 pi_last_payment_error := pi_last_payment_error p |}
         else p) store.

Definition no_such_intent : error := Rejected "No such payment_intent".

Definition demo_lookup (id : value) (store : list payment_intent)
  : result payment_intent * list payment_intent :=
  match lookup_intent id store with
  | Some p => (Ok p, store)
  | None => (Throw no_such_intent, store)
  end.

Definition demo_transition (status : string) (id : value) (store : list payment_intent)
  : result payment_intent * list payment_intent :=
  match lookup_intent id store with
  | Some p =>
      (Ok {| pi_id := pi_id p; pi_status := status;
             pi_last_payment_error := pi_last_payment_error p |},
       set_status (pi_id p) status store)
  | None => (Throw no_such_intent, store)
  end.

(** An in-memory provider: it stores the intents, rejects the calls on an
    unknown intent, and accepts the signature ["signed"] only. *)
Definition demo_stripe : Stripe (list payment_intent) := {|
  paymentIntents_create := fun _ store =>
    let p := {| pi_id := "pi_new"; pi_status := "requires_payment_method";
                pi_last_payment_error := None |} in
    (Ok p, p :: store);
  paymentIntents_update := fun id _ store => demo_lookup id store;
  paymentIntents_retrieve := demo_lookup;
  paymentIntents_confirm := fun id _ store => demo_transition "succeeded" id store;
  paymentIntents_cancel := demo_transition "canceled";
  checkout_sessions_create := fun _ store =>
    (Ok {| session_url := VStr "https://checkout.stripe.com/pay/cs_test_1" |}, store);
  webhooks_constructEvent := fun rawBody signature _ =>
    if strict_eq signature (VStr "signed") then Ok rawBody
    else Throw (Rejected "No signatures found matching the expected signature for payload")
|}.

Definition demo_inventory : Inventory (list payment_intent) := {|
  products_list := fun store =>
    (Ok [ {| skus := [ {| sku_id := "sku_shirt"; sku_price := 1500 |} ] |};
          {| skus := [ {| sku_id := "sku_pins"; sku_price := 799 |};
                       {| sku_id := "sku_increment"; sku_price := 399 |} ] |} ],
     store);
  products_getShippingCost := fun id =>
    if strict_eq id (VStr "free") then Ok 0%float
    else if strict_eq id (VStr "express") then Ok 500%float
    else Throw (TypeError VUndefined "amount")
|}.

Definition demo_config (secret : option string) : Config := {|
  stripe_webhookSecret := secret;
  paymentMethods := ["card"; "au_becs_debit"; "ideal"; "sepa_debit"]
|}.

(** The demo without a signing secret, and with one. *)
Definition demo_env : Env := {|
  state := list payment_intent;
  config := demo_config None;
  stripe := demo_stripe;
  products := demo_inventory;
  js := demo_engine
|}.

Definition signed_env : Env := {|
  state := list payment_intent;
  config := demo_config (Some "whsec_test");
  stripe := demo_stripe;
  products := demo_inventory;
  js := demo_engine
|}.

Definition intent (id status : string) : payment_intent :=
  {| pi_id := id; pi_status := status; pi_last_payment_error := None |}.

Definition demo_store : list payment_intent :=
  [intent "pi_1" "requires_payment_method"; intent "pi_2" "succeeded"].

Definition source_object (id status intent_id : string) : value :=
  VObj [("id", VStr id); ("object", VStr "source"); ("status", VStr status);
        ("metadata", VObj [("paymentIntent", VStr intent_id)])].

Definition event (eventType : string) (object : value) : value :=
  VObj [("type", VStr eventType); ("data", VObj [("object", object)])].

(** An unsigned delivery of [ev], as the body parser leaves it. *)
Definition delivery (ev : value) : request := {|
  req_headers := [];
  req_rawBody := ev;
  req_body := ev;
  req_params_id := VUndefined
|}.

(** A delivery of [ev] with the signature header [signature]. *)
Definition signed_delivery (signature : string) (ev : value) : request := {|
  req_headers := [("stripe-signature", VStr signature)];
  req_rawBody := ev;
  req_body := ev;
  req_params_id := VUndefined
|}.

Definition post (id : string) (b : value) : request := {|
  req_headers := [];
  req_rawBody := b;
  req_body := b;
  req_params_id := VStr id
|}.

Definition order_body : value :=
  VObj [("currency", VStr "usd"); ("price", VNum 10.00); ("quantity", VNum 2);
        ("productName", VStr "Shirt"); ("campaignId", VStr "c_1");
        ("productId", VStr "p_1")].

Definition basket_item (parent : string) (quantity : float) : value :=
  VObj [("parent", VStr parent); ("quantity", VNum quantity)].

(** ** Reading the runs further *)

Definition is_confirm (e : effect) : bool :=
  match e with
  | StripeCall (PaymentIntentsConfirm _ _) => true
  | _ => false
  end.

Definition is_cancel (e : effect) : bool :=
  match e with
  | StripeCall (PaymentIntentsCancel _) => true
  | _ => false
  end.

(** A computation that leaves the state of the collaborators as it is. *)
Definition stateless {E : Env} {A : Type} (m : run A) : Prop :=
  forall s, final (m s) = s.

(** An answer of the webhook: a bare status, 200, 400 or 403. *)
Definition webhook_answer (res : response) : Prop :=
  res_body res = StatusText
  /\ (res_status res = 200 \/ res_status res = 400 \/ res_status res = 403).

(** The calls that one delivery can make from the state [s] of the provider:
    none; one cancellation; one retrieval that is rejected or whose intent
    is not in the status ["requires_payment_method"]; or one retrieval of an
    intent in that status followed by the confirmation of the retrieved
    intent with a source. *)
Definition guarded_calls {E : Env} (s : state) (calls : list effect) : Prop :=
  calls = []
  \/ (exists intent_id, calls = [StripeCall (PaymentIntentsCancel intent_id)])
  \/ (exists intent_id,
         calls = [StripeCall (PaymentIntentsRetrieve intent_id)]
         /\ ((exists e s1, paymentIntents_retrieve stripe intent_id s = (Throw e, s1))
             \/ (exists paymentIntent s1,
                    paymentIntents_retrieve stripe intent_id s = (Ok paymentIntent, s1)
                    /\ pi_status paymentIntent <> "requires_payment_method")))
  \/ (exists intent_id paymentIntent s1 source_id,
         paymentIntents_retrieve stripe intent_id s = (Ok paymentIntent, s1)
         /\ pi_status paymentIntent = "requires_payment_method"
         /\ calls = [StripeCall (PaymentIntentsRetrieve intent_id);
                     StripeCall (PaymentIntentsConfirm (VStr (pi_id paymentIntent))
                                                       (VObj [("source", source_id)]))]).

(** The status of a source on which the webhook acts. *)
Definition monitored_status (status : value) : bool :=
  strict_eq status (VStr "chargeable") || includes [VStr "failed"; VStr "canceled"] status.

(** What the webhook reads of a request: with a signing secret, the raw body
    and the signature header; without one, the parsed body. *)
Definition same_delivery {E : Env} (req1 req2 : request) : Prop :=
  match configured_secret config with
  | Some _ =>
      req_rawBody req1 = req_rawBody req2
      /\ own_prop "stripe-signature" (req_headers req1)
         = own_prop "stripe-signature" (req_headers req2)
  | None => req_body req1 = req_body req2
  end.



(** An object literal has the own property [k]. *)
Definition has_own (k : string) (props : list (string * value)) : bool :=
  existsb (fun binding => String.eqb k (fst binding)) props.

(** A handler that throws only before it has called the provider. *)
Definition throws_early {E : Env} (m : run response) : Prop :=
  forall s e, outcome (m s) = Throw e -> filter is_stripe_call (effects (m s)) = [].

(** The demo engine, with the conversion of an object to a primitive that
    throws where the one of JavaScript does on parsed JSON: for an object
    with an own property [toString].  That property is no function, so
    [toString] cannot be called, and the inherited [valueOf] returns the
    object itself, which is no primitive (an own [valueOf] cannot be called
    either).  The messages are those of V8. *)
Definition strict_engine : Engine := {|
  string_to_number := string_to_number demo_engine;
  object_to_number := fun v =>
    match v with
    | VObj props =>
        if has_own "toString" props then Throw (TypeError v "toString")
        else object_to_number demo_engine v
    | _ => object_to_number demo_engine v
    end;
  number_to_string := number_to_string demo_engine;
  object_to_string := fun v =>
    match v with
    | VObj props =>
        if has_own "toString" props then Throw (TypeError v "toString")
        else object_to_string demo_engine v
    | _ => object_to_string demo_engine v
    end;
  type_error_message := fun base prop =>
    match base with
    | VUndefined =>
        ("Cannot read properties of undefined (reading '" ++ prop ++ "')")%string
    | VNull => ("Cannot read properties of null (reading '" ++ prop ++ "')")%string
    | _ =>
        if String.eqb prop "reduce" then "items.reduce is not a function"
        else "Cannot convert object to primitive value"
    end
|}.

Definition strict_env : Env := {|
  state := list payment_intent;
  config := demo_config None;
  stripe := demo_stripe;
  products := demo_inventory;
  js := strict_engine
|}.

(** The demo with an inventory whose listing is rejected. *)
Definition offline_env : Env := {|
  state := list payment_intent;
  config := demo_config None;
  stripe := demo_stripe;
  products := {| products_list := fun store => (Throw (Rejected "inventory offline"), store);
                 products_getShippingCost := products_getShippingCost demo_inventory |};
  js := demo_engine
|}.

(** * Properties *)

Ltac step :=
  cbv beta iota delta
      [bind try_catch lift emit await_stripe await_products ret throw sendStatus json].

Section Properties.

Context {E : Env}.

(** ** Laws of the handler monad *)

Lemma bind_lift_ok {A B : Type} (r : result A) (a : A) (k : A -> run B) (s : state) :
  r = Ok a -> bind (lift r) k s = k a s.
Proof.
  intros ->. step. destruct (k a s) as [[o s'] t]. reflexivity.
Qed.

(** ** The webhook: reading the event *)

(** C2: with a signing secret configured, a delivery whose signature
    [constructEvent] refuses is answered with 400; the only effect is the
    line logged, so no call to the provider is made (no retrieve, confirm,
    cancel or update), and the state of the provider is the one before. *)
Theorem webhook_rejects_bad_signature :
  forall (req : request) (secret : string) (err : error) (s : state),
    configured_secret config = Some secret ->
    webhooks_constructEvent stripe (req_rawBody req)
      (own_prop "stripe-signature" (req_headers req)) secret = Throw err ->
    post_webhook req s =
      (Ok {| res_status := 400; res_body := StatusText |}, s,
       [ConsoleLog "⚠️  Webhook signature verification failed."])
    /\ filter is_stripe_call (effects (post_webhook req s)) = [].
Proof.
  intros req secret err s Hsecret Hsig.
  assert (Hrun : post_webhook req s =
                 (Ok {| res_status := 400; res_body := StatusText |}, s,
                  [ConsoleLog "⚠️  Webhook signature verification failed."])).
  { unfold post_webhook, webhook_event. rewrite Hsecret. step. rewrite Hsig. reflexivity. }
  split; [exact Hrun | rewrite Hrun; reflexivity].
Qed.

(** A delivery that carries [object] runs the monitors on it. *)
Lemma post_webhook_delivers (req : request) (object eventType : value) (s : state) :
  delivers req object eventType ->
  post_webhook req s = dispatch object eventType s.
Proof.
  intros [data [Hev Hobj]].
  unfold post_webhook. unfold bind at 1. rewrite Hev.
  rewrite (bind_lift_ok _ object) by exact Hobj.
  destruct (dispatch object eventType s) as [[o s'] t]. reflexivity.
Qed.

Lemma monitor_payment_intent_other (object eventType kind : value) (s : state) :
  get object "object" = Ok kind ->
  strict_eq kind (VStr "payment_intent") = false ->
  monitor_payment_intent object eventType s = (Ok tt, s, []).
Proof.
  intros Hkind Hne. unfold monitor_payment_intent.
  rewrite (bind_lift_ok _ kind) by exact Hkind. rewrite Hne. reflexivity.
Qed.

Lemma source_event_other (object kind : value) (cond : value -> bool) :
  get object "object" = Ok kind ->
  strict_eq kind (VStr "source") = false ->
  source_event object cond = Ok false.
Proof.
  intros Hkind Hne. unfold source_event. rewrite Hkind, Hne. reflexivity.
Qed.

Lemma source_event_status (object status : value) (cond : value -> bool) :
  get object "object" = Ok (VStr "source") ->
  get object "status" = Ok status ->
  cond status = false ->
  source_event object cond = Ok false.
Proof.
  intros Hkind Hstatus Hcond. unfold source_event.
  rewrite Hkind. simpl. rewrite Hstatus, Hcond. reflexivity.
Qed.

Lemma source_event_correlated (object status metadata intent_id : value)
      (cond : value -> bool) :
  get object "object" = Ok (VStr "source") ->
  get object "status" = Ok status ->
  cond status = true ->
  get object "metadata" = Ok metadata ->
  get metadata "paymentIntent" = Ok intent_id ->
  source_event object cond = Ok (truthy intent_id).
Proof.
  intros Hkind Hstatus Hcond Hmeta Hid. unfold source_event.
  rewrite Hkind. simpl. rewrite Hstatus, Hcond, Hmeta, Hid. reflexivity.
Qed.

(** ** The webhook: events on a PaymentIntent *)

(** C7: a delivery of [payment_intent.succeeded] on a payment_intent object
    is answered with 200 after one line is logged; it makes no call to the
    provider and leaves its state as it was, so a second delivery of the same
    event has the same effects and the same answer as the first, and the two
    together change nothing at the provider. *)
Theorem succeeded_event_only_logs :
  forall (req : request) (object id : value) (text : string) (s : state),
    delivers req object (VStr "payment_intent.succeeded") ->
    get object "object" = Ok (VStr "payment_intent") ->
    get object "id" = Ok id ->
    to_string js id = Ok text ->
    let first := post_webhook req s in
    let second := post_webhook req (final first) in
    first =
      (Ok {| res_status := 200; res_body := StatusText |}, s,
       [ConsoleLog ("🔔  Webhook received! Payment for PaymentIntent "
                    ++ text ++ " succeeded.")%string])
    /\ second = first
    /\ filter is_stripe_call (effects first ++ effects second) = [].
Proof.
  intros req object id text s Hdel Hkind Hid Htext first second.
  assert (Hrun : forall s0, post_webhook req s0 =
      (Ok {| res_status := 200; res_body := StatusText |}, s0,
       [ConsoleLog ("🔔  Webhook received! Payment for PaymentIntent "
                    ++ text ++ " succeeded.")%string])).
  { intros s0. rewrite (post_webhook_delivers _ _ _ _ Hdel).
    unfold dispatch, monitor_payment_intent, monitor_source_chargeable,
      monitor_source_failed.
    rewrite (source_event_other object (VStr "payment_intent")) by (exact Hkind || reflexivity).
    rewrite (source_event_other object (VStr "payment_intent")) by (exact Hkind || reflexivity).
    step. rewrite Hkind. simpl. rewrite Hid, Htext. reflexivity. }
  subst first second. rewrite !Hrun. simpl. repeat split.
Qed.

(** C10: a delivery of [payment_intent.payment_failed] on a payment_intent
    object without a [last_payment_error] field makes the handler throw: the
    read of [payment_method] on [undefined] is a TypeError, nothing was
    logged or called before it, and no answer is sent, the 200 least of all. *)
Theorem payment_failed_without_last_error_throws :
  forall (req : request) (object : value) (s : state),
    delivers req object (VStr "payment_intent.payment_failed") ->
    get object "object" = Ok (VStr "payment_intent") ->
    get object "last_payment_error" = Ok VUndefined ->
    post_webhook req s = (Throw (TypeError VUndefined "payment_method"), s, []).
Proof.
  intros req object s Hdel Hkind Hlast.
  rewrite (post_webhook_delivers _ _ _ _ Hdel).
  unfold dispatch, monitor_payment_intent.
  step. rewrite Hkind. simpl. rewrite Hlast. reflexivity.
Qed.

(** ** The webhook: events on a source *)

(** C1: a delivery of a chargeable source whose metadata holds the intent id
    [intent_id] logs a line and retrieves that intent.  When the status of
    the retrieved intent is not ["requires_payment_method"], the answer is
    403 and the retrieval is the only call: nothing is confirmed.  When it
    is, the next call confirms the retrieved intent with the id of the source
    as its [source]; there is no other call, and the answer is 200 when the
    confirmation resolves. *)
Theorem chargeable_source_confirms_when_required :
  forall (req : request) (object eventType metadata intent_id source_id : value)
         (text : string) (paymentIntent : payment_intent) (s s1 : state),
    delivers req object eventType ->
    get object "object" = Ok (VStr "source") ->
    get object "status" = Ok (VStr "chargeable") ->
    get object "metadata" = Ok metadata ->
    get metadata "paymentIntent" = Ok intent_id ->
    truthy intent_id = true ->
    get object "id" = Ok source_id ->
    to_string js source_id = Ok text ->
    paymentIntents_retrieve stripe intent_id s = (Ok paymentIntent, s1) ->
    let chargeable :=
      ConsoleLog ("🔔  Webhook received! The source " ++ text ++ " is chargeable.")%string in
    let retrieve := StripeCall (PaymentIntentsRetrieve intent_id) in
    let params := VObj [("source", source_id)] in
    let confirm := StripeCall (PaymentIntentsConfirm (VStr (pi_id paymentIntent)) params) in
    (pi_status paymentIntent <> "requires_payment_method" ->
     post_webhook req s =
       (Ok {| res_status := 403; res_body := StatusText |}, s1, [chargeable; retrieve]))
    /\
    (pi_status paymentIntent = "requires_payment_method" ->
     exists (r : result payment_intent) (s2 : state),
       paymentIntents_confirm stripe (VStr (pi_id paymentIntent)) params s1 = (r, s2)
       /\ post_webhook req s =
            match r with
            | Ok _ =>
                (Ok {| res_status := 200; res_body := StatusText |}, s2,
                 [chargeable; retrieve; confirm])
            | Throw e =>
                (Throw e, s2, [chargeable; retrieve; confirm; StripeError e])
            end).
Proof.
  intros req object eventType metadata intent_id source_id text paymentIntent s s1
         Hdel Hkind Hstatus Hmeta Hintent Htruthy Hid Htext Hretrieve
         chargeable retrieve params confirm.
  assert (Hstart : post_webhook req s =
    (answered <- monitor_source_chargeable object ;;
     match answered with
     | Some res => ret res
     | None => monitor_source_failed object ;; sendStatus 200
     end) s).
  { rewrite (post_webhook_delivers _ _ _ _ Hdel).
    unfold dispatch. unfold bind at 1.
    rewrite (monitor_payment_intent_other object eventType (VStr "source"))
      by (exact Hkind || reflexivity).
    match goal with |- context [bind ?m ?k s] => destruct (bind m k s) as [[o s'] t] end.
    reflexivity. }
  rewrite Hstart. clear Hstart.
  unfold monitor_source_chargeable.
  rewrite (source_event_correlated object (VStr "chargeable") metadata intent_id)
    by (assumption || reflexivity).
  rewrite Htruthy.
  split.
  - intros Hne. apply String.eqb_neq in Hne.
    step. simpl. rewrite Hid, Htext, Hmeta, Hintent, Hretrieve, Hne. reflexivity.
  - intros Heq. apply String.eqb_eq in Heq.
    destruct (paymentIntents_confirm stripe (VStr (pi_id paymentIntent)) params s1)
      as [r s2] eqn:Hconfirm.
    exists r, s2. split; [reflexivity|].
    unfold monitor_source_failed.
    rewrite (source_event_status object (VStr "chargeable"))
      by (assumption || reflexivity).
    step. simpl. rewrite Hid, Htext, Hmeta, Hintent, Hretrieve, Heq. simpl.
    fold params. rewrite Hconfirm.
    destruct r; reflexivity.
Qed.

(** C3: a delivery of a source whose status is [failed] or [canceled] and
    whose metadata holds the intent id [intent_id] logs a line and cancels
    that intent: the cancellation is the only call to the provider, it is
    made whatever the state of the provider (the intent is not retrieved and
    its status is not looked at), and the answer is 200 when it resolves. *)
Theorem failed_source_cancels_its_intent :
  forall (req : request) (object eventType status metadata intent_id source_id : value)
         (text : string) (s : state),
    delivers req object eventType ->
    get object "object" = Ok (VStr "source") ->
    get object "status" = Ok status ->
    status = VStr "failed" \/ status = VStr "canceled" ->
    get object "metadata" = Ok metadata ->
    get metadata "paymentIntent" = Ok intent_id ->
    truthy intent_id = true ->
    get object "id" = Ok source_id ->
    to_string js source_id = Ok text ->
    let failed := ConsoleLog ("🔔  The source " ++ text ++ " failed or timed out.")%string in
    let cancel := StripeCall (PaymentIntentsCancel intent_id) in
    exists (r : result payment_intent) (s1 : state),
      paymentIntents_cancel stripe intent_id s = (r, s1)
      /\ post_webhook req s =
           match r with
           | Ok _ => (Ok {| res_status := 200; res_body := StatusText |}, s1, [failed; cancel])
           | Throw e => (Throw e, s1, [failed; cancel; StripeError e])
           end
      /\ filter is_stripe_call (effects (post_webhook req s)) = [cancel].
Proof.
  intros req object eventType status metadata intent_id source_id text s
         Hdel Hkind Hstatus Hcase Hmeta Hintent Htruthy Hid Htext failed cancel.
  destruct (paymentIntents_cancel stripe intent_id s) as [r s1] eqn:Hcancel.
  exists r, s1. split; [reflexivity|].
  assert (Hrun : post_webhook req s =
           match r with
           | Ok _ => (Ok {| res_status := 200; res_body := StatusText |}, s1, [failed; cancel])
           | Throw e => (Throw e, s1, [failed; cancel; StripeError e])
           end).
  { rewrite (post_webhook_delivers _ _ _ _ Hdel).
    unfold dispatch.
    unfold bind at 1.
    rewrite (monitor_payment_intent_other object eventType (VStr "source"))
      by (exact Hkind || reflexivity).
    unfold monitor_source_chargeable, monitor_source_failed.
    rewrite (source_event_status object status (fun st => strict_eq st (VStr "chargeable")))
      by (assumption || (destruct Hcase; subst status; reflexivity)).
    rewrite (source_event_correlated object status metadata intent_id)
      by (assumption || (destruct Hcase; subst status; reflexivity)).
    rewrite Htruthy.
    step. simpl. rewrite Hid, Htext, Hmeta, Hintent, Hcancel.
    destruct r; reflexivity. }
  split; [exact Hrun | rewrite Hrun; destruct r; reflexivity].
Qed.

(** ** Counting the effects of a run *)

Lemma count_app (P : effect -> bool) (t1 t2 : list effect) :
  count P (t1 ++ t2) = count P t1 + count P t2.
Proof.
  unfold count. rewrite filter_app, length_app. reflexivity.
Qed.

Lemma count_nil (P : effect -> bool) : count P [] = 0.
Proof. reflexivity. Qed.

Lemma effects_bind {A B : Type} (m : run A) (k : A -> run B) (s : state) :
  effects (bind m k s) =
  effects (m s) ++
  match outcome (m s) with
  | Ok a => effects (k a (final (m s)))
  | Throw _ => []
  end.
Proof.
  unfold bind, outcome, final, effects.
  destruct (m s) as [[[a|e] s1] t1]; simpl.
  - destruct (k a s1) as [[r s2] t2]. reflexivity.
  - rewrite app_nil_r. reflexivity.
Qed.

Lemma outcome_bind {A B : Type} (m : run A) (k : A -> run B) (s : state) :
  outcome (bind m k s) =
  match outcome (m s) with
  | Ok a => outcome (k a (final (m s)))
  | Throw e => Throw e
  end.
Proof.
  unfold bind, outcome, final.
  destruct (m s) as [[[a|e] s1] t1]; simpl; [|reflexivity].
  destruct (k a s1) as [[r s2] t2]. reflexivity.
Qed.

Lemma effects_try_catch {A : Type} (m : run A) (h : error -> run A) (s : state) :
  effects (try_catch m h s) =
  effects (m s) ++
  match outcome (m s) with
  | Ok _ => []
  | Throw e => effects (h e (final (m s)))
  end.
Proof.
  unfold try_catch, outcome, final, effects.
  destruct (m s) as [[[a|e] s1] t1]; simpl.
  - rewrite app_nil_r. reflexivity.
  - destruct (h e s1) as [[r s2] t2]. reflexivity.
Qed.

Lemma outcome_try_catch {A : Type} (m : run A) (h : error -> run A) (s : state) :
  outcome (try_catch m h s) =
  match outcome (m s) with
  | Ok a => Ok a
  | Throw e => outcome (h e (final (m s)))
  end.
Proof.
  unfold try_catch, outcome, final.
  destruct (m s) as [[[a|e] s1] t1]; simpl; [reflexivity|].
  destruct (h e s1) as [[r s2] t2]. reflexivity.
Qed.

Section Counting.

Variable P : effect -> bool.

Lemma quiet_ret {A : Type} (a : A) : quiet P (ret a).
Proof. intros s. reflexivity. Qed.

Lemma quiet_lift {A : Type} (r : result A) : quiet P (lift r).
Proof. intros s. reflexivity. Qed.

Lemma quiet_emit (e : effect) : P e = false -> quiet P (emit e).
Proof. intros H s. unfold count. simpl. rewrite H. reflexivity. Qed.

Lemma quiet_await_products {A : Type} (f : state -> result A * state) :
  P ProductsList = false -> quiet P (await_products f).
Proof.
  intros H s. unfold await_products. destruct (f s) as [r s1].
  unfold count. simpl. rewrite H. reflexivity.
Qed.

Lemma quiet_await_stripe {A : Type} (c : call) (f : state -> result A * state) :
  P (StripeCall c) = false -> (forall e, P (StripeError e) = false) ->
  quiet P (await_stripe c f).
Proof.
  intros Hc He s. unfold await_stripe. destruct (f s) as [[a|e] s1];
    unfold count; simpl; rewrite Hc, ?He; reflexivity.
Qed.

Lemma quiet_bind {A B : Type} (m : run A) (k : A -> run B) :
  quiet P m -> (forall a, quiet P (k a)) -> quiet P (bind m k).
Proof.
  intros Hm Hk s. rewrite effects_bind, count_app, Hm.
  destruct (outcome (m s)); [apply Hk | reflexivity].
Qed.

Lemma quiet_try_catch {A : Type} (m : run A) (h : error -> run A) :
  quiet P m -> (forall e, quiet P (h e)) -> quiet P (try_catch m h).
Proof.
  intros Hm Hh s. rewrite effects_try_catch, count_app, Hm.
  destruct (outcome (m s)); [reflexivity | apply Hh].
Qed.

Lemma quiet_not_in {A : Type} (m : run A) (s : state) (e : effect) :
  quiet P m -> P e = true -> ~ In e (effects (m s)).
Proof.
  intros Hm He Hin. specialize (Hm s). unfold count in Hm.
  assert (Hf : In e (filter P (effects (m s)))) by (apply filter_In; auto).
  destruct (filter P (effects (m s))); [contradiction | discriminate].
Qed.

Lemma at_most_quiet {A : Type} (n : nat) (m : run A) : quiet P m -> at_most P n m.
Proof. intros H s. rewrite H. lia. Qed.

Lemma at_most_await_stripe {A : Type} (c : call) (f : state -> result A * state) :
  (forall e, P (StripeError e) = false) ->
  at_most P 1 (await_stripe c f).
Proof.
  intros He s. unfold await_stripe. destruct (f s) as [[a|e] s1];
    unfold count; simpl; rewrite ?He; destruct (P (StripeCall c)); simpl; lia.
Qed.

Lemma at_most_after_quiet {A B : Type} (n : nat) (m : run A) (k : A -> run B) :
  quiet P m -> (forall a, at_most P n (k a)) -> at_most P n (bind m k).
Proof.
  intros Hm Hk s. rewrite effects_bind, count_app, Hm.
  destruct (outcome (m s)); [apply Hk | cbn; lia].
Qed.

Lemma at_most_then_quiet {A B : Type} (n : nat) (m : run A) (k : A -> run B) :
  at_most P n m -> (forall a, quiet P (k a)) -> at_most P n (bind m k).
Proof.
  intros Hm Hk s. rewrite effects_bind, count_app.
  specialize (Hm s).
  destruct (outcome (m s)); [rewrite Hk | cbn]; lia.
Qed.

Lemma at_most_try_catch_quiet {A : Type} (n : nat) (m : run A) (h : error -> run A) :
  at_most P n m -> (forall e, quiet P (h e)) -> at_most P n (try_catch m h).
Proof.
  intros Hm Hh s. rewrite effects_try_catch, count_app.
  specialize (Hm s).
  destruct (outcome (m s)); [cbn | rewrite Hh]; lia.
Qed.

End Counting.

Ltac quiet :=
  repeat first
    [ apply quiet_ret
    | apply quiet_lift
    | apply quiet_emit; first [reflexivity | assumption]
    | apply quiet_await_products; reflexivity
    | apply quiet_await_stripe; [reflexivity | intro; reflexivity]
    | apply quiet_bind; [| intro]
    | apply quiet_try_catch; [| intro]
    | match goal with
      | |- quiet _ (if ?b then _ else _) => destruct b
      | |- quiet _ (match ?x with _ => _ end) => destruct x
      end ].

(** ** The webhook: at most one mutation per delivery *)

Lemma quiet_webhook_event (P : effect -> bool) (req : request) :
  P (ConsoleLog "⚠️  Webhook signature verification failed.") = false ->
  quiet P (webhook_event req).
Proof.
  intros H. unfold webhook_event, sendStatus. quiet.
Qed.

Lemma quiet_monitor_payment_intent (object eventType : value) :
  quiet mutates (monitor_payment_intent object eventType).
Proof. unfold monitor_payment_intent. quiet. Qed.

(** The two tests on the status of a source exclude each other. *)
Lemma source_event_exclusive (object : value) :
  source_event object (fun status => strict_eq status (VStr "chargeable")) = Ok true ->
  source_event object (includes [VStr "failed"; VStr "canceled"]) = Ok false.
Proof.
  unfold source_event.
  destruct (get object "object") as [kind|]; [|discriminate].
  destruct (strict_eq kind (VStr "source")); [|reflexivity].
  destruct (get object "status") as [status|]; [|discriminate].
  destruct (strict_eq status (VStr "chargeable")) eqn:Hc; [|discriminate].
  intros _.
  destruct status; try discriminate. simpl in Hc.
  apply String.eqb_eq in Hc. subst s. reflexivity.
Qed.

Lemma monitor_source_chargeable_skips (object : value) (s : state) :
  source_event object (fun status => strict_eq status (VStr "chargeable")) <> Ok true ->
  effects (monitor_source_chargeable object s) = [].
Proof.
  intros H. unfold monitor_source_chargeable. step.
  destruct (source_event object _) as [[|]|]; try reflexivity.
  contradiction H. reflexivity.
Qed.

Lemma monitor_source_failed_skips (object : value) (s : state) :
  source_event object (includes [VStr "failed"; VStr "canceled"]) = Ok false ->
  monitor_source_failed object s = (Ok tt, s, []).
Proof.
  intros H. unfold monitor_source_failed. step. rewrite H. reflexivity.
Qed.

Lemma monitor_source_chargeable_once (object : value) :
  at_most mutates 1 (monitor_source_chargeable object).
Proof.
  unfold monitor_source_chargeable, sendStatus.
  apply at_most_after_quiet; [quiet | intros [|]]; [|apply at_most_quiet; quiet].
  do 6 (apply at_most_after_quiet; [quiet | intros ?]).
  destruct (negb _); [apply at_most_quiet; quiet |].
  apply at_most_after_quiet; [quiet | intros ?].
  apply at_most_then_quiet; [apply at_most_await_stripe; reflexivity | intros ?; quiet].
Qed.

Lemma monitor_source_failed_once (object : value) :
  at_most mutates 1 (monitor_source_failed object).
Proof.
  unfold monitor_source_failed.
  apply at_most_after_quiet; [quiet | intros [|]]; [|apply at_most_quiet; quiet].
  do 5 (apply at_most_after_quiet; [quiet | intros ?]).
  apply at_most_then_quiet; [apply at_most_await_stripe; reflexivity | intros ?; quiet].
Qed.

Lemma dispatch_once (object eventType : value) (s : state) :
  mutations (effects (dispatch object eventType s)) <= 1.
Proof.
  unfold dispatch, mutations.
  rewrite effects_bind, count_app, quiet_monitor_payment_intent.
  destruct (outcome (monitor_payment_intent object eventType s));
    [|rewrite count_nil; lia].
  set (s1 := final (monitor_payment_intent object eventType s)).
  rewrite effects_bind, count_app.
  pose proof (monitor_source_chargeable_once object s1) as Hc.
  destruct (outcome (monitor_source_chargeable object s1)) as [[res|]|].
  - change (count mutates (effects (ret res (final (monitor_source_chargeable object s1)))))
      with 0.
    lia.
  - set (s2 := final (monitor_source_chargeable object s1)).
    rewrite effects_bind, count_app.
    pose proof (monitor_source_failed_once object s2) as Hf.
    assert (Hlast : count mutates
              match outcome (monitor_source_failed object s2) with
              | Ok _ => effects (sendStatus 200 (final (monitor_source_failed object s2)))
              | Throw _ => []
              end = 0)
      by (destruct (outcome (monitor_source_failed object s2)); reflexivity).
    rewrite Hlast, Nat.add_0_r.
    destruct (source_event object (fun status => strict_eq status (VStr "chargeable")))
      as [[|]|] eqn:Htest.
    + assert (effects (monitor_source_failed object s2) = []) as ->
        by (rewrite (monitor_source_failed_skips object _
                       (source_event_exclusive object Htest)); reflexivity).
      rewrite count_nil. lia.
    + rewrite monitor_source_chargeable_skips by (rewrite Htest; discriminate).
      rewrite count_nil. exact Hf.
    + rewrite monitor_source_chargeable_skips by (rewrite Htest; discriminate).
      rewrite count_nil. exact Hf.
  - rewrite count_nil. lia.
Qed.

Lemma two_mutations (a b : effect) (t : list effect) :
  In a t -> In b t -> a <> b -> mutates a = true -> mutates b = true ->
  2 <= mutations t.
Proof.
  unfold mutations, count.
  induction t as [|x t IH]; simpl; intros Ha Hb Hne Hma Hmb; [contradiction|].
  destruct Ha as [Ha|Ha], Hb as [Hb|Hb].
  - congruence.
  - subst x. rewrite Hma. simpl.
    assert (In b (filter mutates t)) by (apply filter_In; auto).
    destruct (filter mutates t); [contradiction | simpl; lia].
  - subst x. rewrite Hmb. simpl.
    assert (In a (filter mutates t)) by (apply filter_In; auto).
    destruct (filter mutates t); [contradiction | simpl; lia].
  - specialize (IH Ha Hb Hne Hma Hmb).
    destruct (mutates x); simpl; lia.
Qed.

(** C9: whatever the delivery and the state of the provider, the handler
    makes at most one call that changes an intent; in particular no delivery
    has both a confirmation and a cancellation among its effects.  The test
    of the confirm block needs the status ["chargeable"] and the one of the
    cancel block the status ["failed"] or ["canceled"]: they exclude each
    other. *)
Theorem webhook_mutates_at_most_once :
  forall (req : request) (s : state),
    mutations (effects (post_webhook req s)) <= 1
    /\ (forall id params id',
          In (StripeCall (PaymentIntentsConfirm id params)) (effects (post_webhook req s)) ->
          In (StripeCall (PaymentIntentsCancel id')) (effects (post_webhook req s)) ->
          False).
Proof.
  intros req s.
  assert (Hone : mutations (effects (post_webhook req s)) <= 1).
  { unfold post_webhook, mutations.
    rewrite effects_bind, count_app, quiet_webhook_event by reflexivity.
    destruct (outcome (webhook_event req s)) as [[res|[data eventType]]|];
      cbv beta iota.
    - change (count mutates (effects (ret res (final (webhook_event req s))))) with 0. lia.
    - rewrite effects_bind, count_app.
      destruct (get data "object") as [object|].
      + change (count mutates (effects (lift (Ok object) (final (webhook_event req s)))))
          with 0.
        apply dispatch_once.
      + cbn. lia.
    - rewrite count_nil. lia. }
  split; [exact Hone|].
  intros id params id' Hconfirm Hcancel.
  pose proof (two_mutations _ _ _ Hconfirm Hcancel) as Htwo.
  assert (2 <= mutations (effects (post_webhook req s))).
  { apply Htwo; [discriminate | reflexivity | reflexivity]. }
  lia.
Qed.

(** ** Creating a PaymentIntent *)

(** The run of [POST /payment_intents] on a body that is an object and whose
    [price * quantity] the engine can compute. *)
Lemma post_payment_intents_run (req : request) (props : list (string * value))
      (pq : float) (s : state) :
  req_body req = VObj props ->
  js_mul js (own_prop "price" props) (own_prop "quantity" props) = Ok pq ->
  let params :=
    create_params (pq * 100) (own_prop "currency" props) (own_prop "productName" props)
      (own_prop "campaignId" props) (own_prop "productId" props)
      (own_prop "quantity" props) in
  let create := StripeCall (PaymentIntentsCreate params) in
  post_payment_intents req s =
    match paymentIntents_create stripe params s with
    | (Ok paymentIntent, s1) =>
        (Ok {| res_status := 200; res_body := JsonPaymentIntent paymentIntent |}, s1,
         [create])
    | (Throw e, s1) =>
        (Ok {| res_status := 500; res_body := JsonError (message js e) |}, s1,
         [create; StripeError e; ConsoleLogError e])
    end.
Proof.
  intros Hbody Hmul params create.
  unfold post_payment_intents. rewrite Hbody. step. simpl. rewrite Hmul. simpl.
  fold params.
  destruct (paymentIntents_create stripe params s) as [[paymentIntent|e] s1]; reflexivity.
Qed.


Lemma filter_is_remove (l : list string) :
  filter (fun paymentMethod => negb (String.eqb paymentMethod "au_becs_debit")) l
  = remove string_dec "au_becs_debit" l.
Proof.
  induction l as [|x l IH]; [reflexivity|].
  cbn [filter remove].
  destruct (string_dec "au_becs_debit" x) as [Heq|Hne].
  - subst x. rewrite String.eqb_refl. cbn [negb]. exact IH.
  - destruct (String.eqb_spec x "au_becs_debit") as [Heq|_]; [congruence|].
    cbn [negb]. rewrite IH. reflexivity.
Qed.

(** Every effect of [POST /payment_intents] that is a call creates an intent
    from [create_params]. *)
Lemma post_payment_intents_calls (req : request) (s : state) (c : call) :
  In (StripeCall c) (effects (post_payment_intents req s)) ->
  exists amount currency productName campaignId productId quantity,
    c = PaymentIntentsCreate
          (create_params amount currency productName campaignId productId quantity).
Proof.
  unfold post_payment_intents.
  destruct (req_body req) as [| |b|n|str|elems|props];
    try (intros H; exact (False_ind _ H)); step; simpl.
  all: try match goal with
       | |- context [js_mul js ?a ?b] => destruct (js_mul js a b) as [pq|e0]; simpl
       end.
  all: try match goal with
       | |- context [paymentIntents_create stripe ?p ?s0] =>
           destruct (paymentIntents_create stripe p s0) as [[paymentIntent|e] s1]; simpl
       end.
  all: intros H; repeat (destruct H as [H|H]; try discriminate); try contradiction.
  all: injection H as <-; do 6 eexists; reflexivity.
Qed.

(** C8: every intent that [POST /payment_intents] creates is created with
    the payment method types of the configuration from which every
    ['au_becs_debit'] is removed, the other methods staying as and where they
    are ([remove] is the removal of the standard library). *)
Theorem create_excludes_au_becs_debit :
  forall (req : request) (s : state) (params : value),
    In (StripeCall (PaymentIntentsCreate params)) (effects (post_payment_intents req s)) ->
    get params "payment_method_types"
    = Ok (VArr (map VStr (remove string_dec "au_becs_debit" (paymentMethods config)))).
Proof.
  intros req s params Hin.
  destruct (post_payment_intents_calls req s _ Hin)
    as (amount & currency & productName & campaignId & productId & quantity & Heq).
  injection Heq as ->.
  unfold create_params, initPaymentMethods. simpl.
  rewrite filter_is_remove. reflexivity.
Qed.

(** ** The amount of a basket *)

(** The skus of the listing are the skus of its products, in order. *)
Lemma listing_skus_flat_map (productList : list product) :
  listing_skus productList = flat_map skus productList.
Proof.
  unfold listing_skus.
  assert (H : forall acc, fold_left (fun a p => a ++ skus p) productList acc
                          = acc ++ flat_map skus productList).
  { induction productList as [|p l IH]; intros acc; simpl.
    - rewrite app_nil_r. reflexivity.
    - rewrite IH, app_assoc. reflexivity. }
  apply H.
Qed.

Lemma filter_skus_parent (item parent : value) (l : list sku) :
  get item "parent" = Ok parent ->
  filter_skus item l = Ok (filter (fun s => strict_eq (VStr (sku_id s)) parent) l).
Proof.
  intros Hparent. induction l as [|x l IH]; simpl; [reflexivity|].
  rewrite Hparent, IH. destruct (strict_eq (VStr (sku_id x)) parent); reflexivity.
Qed.

Lemma filter_skus_no_parent (item : value) (e : error) (l : list sku) :
  get item "parent" = Throw e ->
  filter_skus item l = Ok [] \/ filter_skus item l = Throw e.
Proof.
  intros Hparent. destruct l as [|x l]; simpl; [left; reflexivity|].
  rewrite Hparent. right. reflexivity.
Qed.

(** [l.filter(f)[0]] is the first element of [l] that satisfies [f]. *)
Lemma filter_first {A : Type} (f : A -> bool) (l : list A) :
  match filter f l with
  | x :: _ => find f l = Some x
  | [] => find f l = None
  end.
Proof.
  induction l as [|x l IH]; simpl; [reflexivity|].
  destruct (f x); [reflexivity | exact IH].
Qed.

Lemma add_item_resolves (all_skus : list sku) (a : float) (item : value)
      (line : sku * float) :
  resolves all_skus item line ->
  add_item all_skus a item = Ok (a + sku_price (fst line) * snd line)%float.
Proof.
  intros (parent & quantity & Hparent & Hfind & Hquantity & Hnumber).
  unfold add_item. rewrite (filter_skus_parent item parent) by exact Hparent.
  pose proof (filter_first (fun s => strict_eq (VStr (sku_id s)) parent) all_skus) as Hfirst.
  destruct (filter _ all_skus) as [|x found].
  - rewrite Hfind in Hfirst. discriminate.
  - rewrite Hfind in Hfirst. injection Hfirst as <-.
    rewrite Hquantity, Hnumber. reflexivity.
Qed.

Lemma add_item_unresolved (all_skus : list sku) (a : float) (item : value) :
  unresolved all_skus item ->
  exists e, add_item all_skus a item = Throw e.
Proof.
  intros Hun. unfold add_item.
  destruct (get item "parent") as [parent|e] eqn:Hparent.
  - rewrite (filter_skus_parent item parent) by exact Hparent.
    pose proof (filter_first (fun s => strict_eq (VStr (sku_id s)) parent) all_skus) as Hfirst.
    rewrite (Hun parent Hparent) in Hfirst.
    destruct (filter _ all_skus) as [|x found]; [|discriminate].
    eexists. reflexivity.
  - destruct (filter_skus_no_parent item e all_skus Hparent) as [-> | ->];
      eexists; reflexivity.
Qed.

Lemma reduce_resolves (all_skus : list sku) (items : list value)
      (lines : list (sku * float)) :
  Forall2 (resolves all_skus) items lines ->
  forall a,
    reduce (add_item all_skus) items a
    = Ok (fold_left (fun a line => (a + sku_price (fst line) * snd line)%float) lines a).
Proof.
  induction 1 as [|item line items lines Hline _ IH]; intros a; simpl; [reflexivity|].
  rewrite (add_item_resolves _ _ _ _ Hline). apply IH.
Qed.

Lemma reduce_unresolved (all_skus : list sku) (items : list value) (item : value) :
  In item items ->
  unresolved all_skus item ->
  forall a, exists e, reduce (add_item all_skus) items a = Throw e.
Proof.
  intros Hin Hun.
  induction items as [|x items IH]; intros a; simpl; [contradiction|].
  destruct Hin as [->|Hin].
  - destruct (add_item_unresolved all_skus a item Hun) as [e ->]. eexists. reflexivity.
  - destruct (add_item all_skus a x) as [a'|e]; [apply IH; exact Hin | eexists; reflexivity].
Qed.

(** C4: against a listing [productList], the amount of a basket all of
    whose items resolve to a sku is the sum, over the items in order, of the
    price of the item's sku times its quantity; and a basket with an item
    that resolves to no sku makes [calculatePaymentAmount] throw (the read of
    [price] on the missing sku fails), it does not skip the item. *)
Theorem amount_is_sum_or_lookup_error :
  forall (productList : list product) (items : list value) (s s1 : state),
    products_list products s = (Ok productList, s1) ->
    (forall lines : list (sku * float),
        Forall2 (resolves (listing_skus productList)) items lines ->
        calculatePaymentAmount (VArr items) s = (Ok (basket_total lines), s1, [ProductsList]))
    /\
    (forall item : value,
        In item items ->
        unresolved (listing_skus productList) item ->
        exists e, calculatePaymentAmount (VArr items) s = (Throw e, s1, [ProductsList])).
Proof.
  intros productList items s s1 Hlist.
  split.
  - intros lines Hlines.
    unfold calculatePaymentAmount. step. rewrite Hlist. simpl.
    rewrite (reduce_resolves _ _ _ Hlines). reflexivity.
  - intros item Hin Hun.
    destruct (reduce_unresolved _ _ _ Hin Hun 0%float) as [e He].
    exists e. unfold calculatePaymentAmount. step. rewrite Hlist. simpl.
    rewrite He. reflexivity.
Qed.

(** ** Rejections of the provider *)

Lemma propagates_quiet {A : Type} (m : run A) :
  quiet is_stripe_error m -> propagates m.
Proof.
  intros Hm s e Hin. exfalso.
  exact (quiet_not_in is_stripe_error m s (StripeError e) Hm eq_refl Hin).
Qed.

Lemma propagates_await_stripe {A : Type} (c : call) (f : state -> result A * state) :
  propagates (await_stripe c f).
Proof.
  intros s e. unfold await_stripe, outcome, effects.
  destruct (f s) as [[a|e'] s1]; simpl.
  - intros [H|[]]. discriminate.
  - intros [H|[H|[]]]; [discriminate|]. injection H as ->.
    split; [reflexivity|]. exists [StripeCall c]. reflexivity.
Qed.

Lemma propagates_bind {A B : Type} (m : run A) (k : A -> run B) :
  propagates m -> (forall a, propagates (k a)) -> propagates (bind m k).
Proof.
  intros Hm Hk s e. rewrite effects_bind, outcome_bind. intros Hin.
  apply in_app_or in Hin. destruct Hin as [Hin|Hin].
  - destruct (Hm s e Hin) as [Hout [t Ht]]. rewrite Hout.
    split; [reflexivity|]. exists t. rewrite app_nil_r. exact Ht.
  - destruct (outcome (m s)) as [a|e']; [|contradiction].
    destruct (Hk a _ e Hin) as [Hout [t Ht]].
    split; [exact Hout|]. exists (effects (m s) ++ t). rewrite Ht, app_assoc. reflexivity.
Qed.

Ltac propagate :=
  repeat first
    [ apply propagates_await_stripe
    | apply propagates_bind; [| intro]
    | apply propagates_quiet; solve [quiet]
    | match goal with
      | |- propagates (if ?b then _ else _) => destruct b
      | |- propagates (match ?x with _ => _ end) => destruct x
      end ].

(** A handler whose [try] block lets the rejections through and whose
    [catch] block answers 500 with the message surfaces them. *)
Lemma surfaces_try_catch (m : run response) (h : error -> run response) :
  propagates m ->
  (forall err, quiet is_stripe_error (h err)) ->
  (forall err s, outcome (h err s)
                 = Ok {| res_status := 500; res_body := JsonError (message js err) |}) ->
  surfaces (try_catch m h).
Proof.
  intros Hm Hquiet Hh s e. rewrite effects_try_catch, outcome_try_catch. intros Hin.
  apply in_app_or in Hin. destruct Hin as [Hin|Hin].
  - destruct (Hm s e Hin) as [Hout _]. rewrite Hout. apply Hh.
  - destruct (outcome (m s)) as [a|e']; [contradiction|].
    exfalso.
    exact (quiet_not_in is_stripe_error (h e') _ (StripeError e) (Hquiet e') eq_refl Hin).
Qed.

Lemma surfaces_after_quiet {A : Type} (m : run A) (k : A -> run response) :
  quiet is_stripe_error m -> (forall a, surfaces (k a)) -> surfaces (bind m k).
Proof.
  intros Hm Hk s e. rewrite effects_bind, outcome_bind. intros Hin.
  apply in_app_or in Hin. destruct Hin as [Hin|Hin].
  - exfalso. exact (quiet_not_in is_stripe_error m s (StripeError e) Hm eq_refl Hin).
  - destruct (outcome (m s)) as [a|e']; [|contradiction].
    exact (Hk a _ e Hin).
Qed.

Ltac surface :=
  repeat (apply surfaces_after_quiet; [solve [quiet] | intro]);
  apply surfaces_try_catch; [propagate | intro; quiet | reflexivity].

Ltac single_call :=
  repeat (apply at_most_after_quiet; [solve [quiet] | intro]);
  apply at_most_try_catch_quiet; [| intro; quiet];
  repeat (apply at_most_after_quiet; [solve [quiet] | intro]);
  apply at_most_then_quiet; [apply at_most_await_stripe; reflexivity | intro; quiet].

Lemma quiet_calculatePaymentAmount (P : effect -> bool) (items : value) :
  P ProductsList = false -> quiet P (calculatePaymentAmount items).
Proof.
  intros H. unfold calculatePaymentAmount.
  apply quiet_bind; [apply quiet_await_products; exact H | intro; quiet].
Qed.

Lemma surfaces_post_payment_intents (req : request) :
  surfaces (post_payment_intents req) /\ at_most is_stripe_call 1 (post_payment_intents req).
Proof.
  unfold post_payment_intents, json. split; [surface | single_call].
Qed.

Lemma surfaces_post_update_quantity (req : request) :
  surfaces (post_update_quantity req) /\ at_most is_stripe_call 1 (post_update_quantity req).
Proof.
  unfold post_update_quantity, json. split; [surface | single_call].
Qed.

Lemma surfaces_post_update_currency (req : request) :
  surfaces (post_update_currency req) /\ at_most is_stripe_call 1 (post_update_currency req).
Proof.
  unfold post_update_currency, json. split; [surface | single_call].
Qed.

Lemma surfaces_post_shipping_change (req : request) :
  surfaces (post_shipping_change req) /\ at_most is_stripe_call 1 (post_shipping_change req).
Proof.
  unfold post_shipping_change, json. split.
  - do 2 (apply surfaces_after_quiet; [solve [quiet] | intro]).
    apply surfaces_after_quiet; [apply quiet_calculatePaymentAmount; reflexivity | intro].
    surface.
  - do 2 (apply at_most_after_quiet; [solve [quiet] | intro]).
    apply at_most_after_quiet; [apply quiet_calculatePaymentAmount; reflexivity | intro].
    single_call.
Qed.

Lemma propagates_post_webhook (req : request) : propagates (post_webhook req).
Proof.
  unfold post_webhook.
  apply propagates_bind;
    [apply propagates_quiet; apply quiet_webhook_event; reflexivity | intros [res|[data ty]]].
  - propagate.
  - unfold dispatch, monitor_payment_intent, monitor_source_chargeable,
      monitor_source_failed, sendStatus.
    propagate.
Qed.

Lemma propagates_get_status (req : request) : propagates (get_status req).
Proof. unfold get_status, json. propagate. Qed.

(** [POST /create-checkout-session] has no [try] block either: the rejection
    of the creation of the session leaves the handler. *)
Remark propagates_post_create_checkout_session (req : request) :
  propagates (post_create_checkout_session req).
Proof. unfold post_create_checkout_session, json. propagate. Qed.

(** C6, as the code has it: when the provider rejects the call of one of the
    routes that create or update an intent ([POST /payment_intents],
    [update_quantity], [shipping_change], [update_currency]), the answer is
    500 with the message of the provider's error, unchanged, as the [error]
    of its body, and the run makes no second call.  The webhook and the
    status route do not catch the rejection of their retrieve, confirm or
    cancel call: the rejection is their last effect, the error leaves the
    handler, and the handler sends no answer. *)
Theorem rejections_surface_or_propagate :
  forall (req : request) (s : state) (e : error),
    (forall guarded : request -> run response,
        In guarded [post_payment_intents; post_update_quantity;
                    post_shipping_change; post_update_currency] ->
        In (StripeError e) (effects (guarded req s)) ->
        outcome (guarded req s)
        = Ok {| res_status := 500; res_body := JsonError (message js e) |}
        /\ count is_stripe_call (effects (guarded req s)) <= 1)
    /\
    (forall unguarded : request -> run response,
        In unguarded [post_webhook; get_status] ->
        In (StripeError e) (effects (unguarded req s)) ->
        outcome (unguarded req s) = Throw e
        /\ exists t, effects (unguarded req s) = t ++ [StripeError e]).
Proof.
  intros req s e. split.
  - intros guarded Hroute Hin.
    assert (H : surfaces (guarded req) /\ at_most is_stripe_call 1 (guarded req)).
    { destruct Hroute as [<-|[<-|[<-|[<-|[]]]]].
      - apply surfaces_post_payment_intents.
      - apply surfaces_post_update_quantity.
      - apply surfaces_post_shipping_change.
      - apply surfaces_post_update_currency. }
    destruct H as [Hsurfaces Hone].
    split; [exact (Hsurfaces s e Hin) | exact (Hone s)].
  - intros unguarded Hroute Hin.
    assert (H : propagates (unguarded req)).
    { destruct Hroute as [<-|[<-|[]]].
      - apply propagates_post_webhook.
      - apply propagates_get_status. }
    exact (H s e Hin).
Qed.

End Properties.

(** * The properties on the demo *)

(** The events of the sample deliveries hold their object as [data.object]. *)
Ltac delivered :=
  match goal with
  | |- delivers _ ?object _ =>
      exists (VObj [("object", object)]); split; [intros s; reflexivity | reflexivity]
  end.

(** C2 on a forged signature. *)
Lemma webhook_rejects_bad_signature_witness :
  post_webhook (E := signed_env)
    (signed_delivery "forged"
       (event "source.chargeable" (source_object "src_1" "chargeable" "pi_1")))
    demo_store
  = (Ok {| res_status := 400; res_body := StatusText |}, demo_store,
     [ConsoleLog "⚠️  Webhook signature verification failed."])
  /\ filter is_stripe_call
       (effects (post_webhook (E := signed_env)
                   (signed_delivery "forged"
                      (event "source.chargeable"
                             (source_object "src_1" "chargeable" "pi_1")))
                   demo_store)) = [].
Proof.
  apply (webhook_rejects_bad_signature (E := signed_env) _ "whsec_test"
           (Rejected "No signatures found matching the expected signature for payload"));
    reflexivity.
Defined.

(** C7 on a signed delivery of [payment_intent.succeeded]. *)
Lemma succeeded_event_only_logs_witness :
  let req :=
    signed_delivery "signed"
      (event "payment_intent.succeeded"
             (VObj [("id", VStr "pi_2"); ("object", VStr "payment_intent")])) in
  let first := post_webhook (E := signed_env) req demo_store in
  let second := post_webhook (E := signed_env) req (final first) in
  first =
    (Ok {| res_status := 200; res_body := StatusText |}, demo_store,
     [ConsoleLog "🔔  Webhook received! Payment for PaymentIntent pi_2 succeeded."])
  /\ second = first
  /\ filter is_stripe_call (effects first ++ effects second) = [].
Proof.
  apply (succeeded_event_only_logs (E := signed_env) _
           (VObj [("id", VStr "pi_2"); ("object", VStr "payment_intent")])
           (VStr "pi_2") "pi_2" demo_store).
  - delivered.
  - reflexivity.
  - reflexivity.
  - reflexivity.
Defined.

(** C10 on a [payment_intent.payment_failed] event without the error. *)
Lemma payment_failed_without_last_error_throws_witness :
  post_webhook (E := demo_env)
    (delivery (event "payment_intent.payment_failed"
                     (VObj [("id", VStr "pi_1"); ("object", VStr "payment_intent")])))
    demo_store
  = (Throw (TypeError VUndefined "payment_method"), demo_store, []).
Proof.
  apply (payment_failed_without_last_error_throws (E := demo_env) _
           (VObj [("id", VStr "pi_1"); ("object", VStr "payment_intent")]) demo_store).
  - delivered.
  - reflexivity.
  - reflexivity.
Defined.

(** C1 on an intent that waits for a payment method, and on one that has
    succeeded. *)
Lemma chargeable_source_confirms_when_required_witness :
  (exists r s2,
      paymentIntents_confirm demo_stripe (VStr "pi_1") (VObj [("source", VStr "src_1")])
        demo_store = (r, s2)
      /\ post_webhook (E := demo_env)
           (delivery (event "source.chargeable" (source_object "src_1" "chargeable" "pi_1")))
           demo_store
         = match r with
           | Ok _ =>
               (Ok {| res_status := 200; res_body := StatusText |}, s2,
                [ConsoleLog "🔔  Webhook received! The source src_1 is chargeable.";
                 StripeCall (PaymentIntentsRetrieve (VStr "pi_1"));
                 StripeCall (PaymentIntentsConfirm (VStr "pi_1")
                                                   (VObj [("source", VStr "src_1")]))])
           | Throw e =>
               (Throw e, s2,
                [ConsoleLog "🔔  Webhook received! The source src_1 is chargeable.";
                 StripeCall (PaymentIntentsRetrieve (VStr "pi_1"));
                 StripeCall (PaymentIntentsConfirm (VStr "pi_1")
                                                   (VObj [("source", VStr "src_1")]));
                 StripeError e])
           end)
  /\ post_webhook (E := demo_env)
       (delivery (event "source.chargeable" (source_object "src_2" "chargeable" "pi_2")))
       demo_store
     = (Ok {| res_status := 403; res_body := StatusText |}, demo_store,
        [ConsoleLog "🔔  Webhook received! The source src_2 is chargeable.";
         StripeCall (PaymentIntentsRetrieve (VStr "pi_2"))]).
Proof.
  split.
  - apply (chargeable_source_confirms_when_required (E := demo_env)
             (delivery (event "source.chargeable"
                              (source_object "src_1" "chargeable" "pi_1")))
             (source_object "src_1" "chargeable" "pi_1") (VStr "source.chargeable")
             (VObj [("paymentIntent", VStr "pi_1")]) (VStr "pi_1") (VStr "src_1") "src_1"
             (intent "pi_1" "requires_payment_method") demo_store demo_store);
      try reflexivity.
    delivered.
  - apply (chargeable_source_confirms_when_required (E := demo_env)
             (delivery (event "source.chargeable"
                              (source_object "src_2" "chargeable" "pi_2")))
             (source_object "src_2" "chargeable" "pi_2") (VStr "source.chargeable")
             (VObj [("paymentIntent", VStr "pi_2")]) (VStr "pi_2") (VStr "src_2") "src_2"
             (intent "pi_2" "succeeded") demo_store demo_store);
      try reflexivity.
    + delivered.
    + discriminate.
Defined.

(** C3 on a failed source. *)
Lemma failed_source_cancels_its_intent_witness :
  exists r s1,
    paymentIntents_cancel demo_stripe (VStr "pi_1") demo_store = (r, s1)
    /\ post_webhook (E := demo_env)
         (delivery (event "source.failed" (source_object "src_1" "failed" "pi_1")))
         demo_store
       = match r with
         | Ok _ =>
             (Ok {| res_status := 200; res_body := StatusText |}, s1,
              [ConsoleLog "🔔  The source src_1 failed or timed out.";
               StripeCall (PaymentIntentsCancel (VStr "pi_1"))])
         | Throw e =>
             (Throw e, s1,
              [ConsoleLog "🔔  The source src_1 failed or timed out.";
               StripeCall (PaymentIntentsCancel (VStr "pi_1")); StripeError e])
         end
    /\ filter is_stripe_call
         (effects (post_webhook (E := demo_env)
                     (delivery (event "source.failed"
                                      (source_object "src_1" "failed" "pi_1")))
                     demo_store))
       = [StripeCall (PaymentIntentsCancel (VStr "pi_1"))].
Proof.
  apply (failed_source_cancels_its_intent (E := demo_env)
           (delivery (event "source.failed" (source_object "src_1" "failed" "pi_1")))
           (source_object "src_1" "failed" "pi_1") (VStr "source.failed") (VStr "failed")
           (VObj [("paymentIntent", VStr "pi_1")]) (VStr "pi_1") (VStr "src_1") "src_1"
           demo_store);
    try reflexivity.
  - delivered.
  - left. reflexivity.
Defined.

(** C4 on the listing of the demo: two shirts and three increments, and a
    basket with a sku that the listing does not have. *)
Lemma amount_is_sum_or_lookup_error_witness :
  calculatePaymentAmount (E := demo_env)
    (VArr [basket_item "sku_shirt" 2; basket_item "sku_increment" 3]) demo_store
  = (Ok 4197%float, demo_store, [ProductsList])
  /\ exists e,
       calculatePaymentAmount (E := demo_env)
         (VArr [basket_item "sku_shirt" 2; basket_item "sku_unknown" 1]) demo_store
       = (Throw e, demo_store, [ProductsList]).
Proof.
  destruct (amount_is_sum_or_lookup_error (E := demo_env) _
              [basket_item "sku_shirt" 2; basket_item "sku_increment" 3]
              demo_store demo_store eq_refl) as [Hsum _].
  destruct (amount_is_sum_or_lookup_error (E := demo_env) _
              [basket_item "sku_shirt" 2; basket_item "sku_unknown" 1]
              demo_store demo_store eq_refl) as [_ Hthrow].
  split.
  - apply (Hsum [({| sku_id := "sku_shirt"; sku_price := 1500 |}, 2%float);
                 ({| sku_id := "sku_increment"; sku_price := 399 |}, 3%float)]).
    repeat constructor.
    + exists (VStr "sku_shirt"), (VNum 2). repeat split.
    + exists (VStr "sku_increment"), (VNum 3). repeat split.
  - apply (Hthrow (basket_item "sku_unknown" 1)).
    + right. left. reflexivity.
    + intros parent H. injection H as <-. reflexivity.
Defined.



(** C8 on the configuration of the demo, which lists ['au_becs_debit']. *)
Lemma create_excludes_au_becs_debit_witness :
  let params :=
    create_params (E := demo_env) 2000 (VStr "usd") (VStr "Shirt") (VStr "c_1")
      (VStr "p_1") (VNum 2) in
  In (StripeCall (PaymentIntentsCreate params))
     (effects (post_payment_intents (E := demo_env) (post "" order_body) demo_store))
  /\ get params "payment_method_types"
     = Ok (VArr [VStr "card"; VStr "ideal"; VStr "sepa_debit"]).
Proof.
  intros params.
  assert (Hin : In (StripeCall (PaymentIntentsCreate params))
                   (effects (post_payment_intents (E := demo_env) (post "" order_body)
                                                  demo_store)))
    by (left; reflexivity).
  split; [exact Hin|].
  exact (create_excludes_au_becs_debit (E := demo_env) (post "" order_body) demo_store
           params Hin).
Defined.

(** C6 as it is stated fails on the webhook: the provider rejects the
    retrieval of an intent that it does not know, and the handler answers
    nothing, neither 500 nor anything else: the error leaves it. *)
Lemma webhook_rejection_is_not_surfaced :
  let r :=
    post_webhook (E := demo_env)
      (delivery (event "source.chargeable" (source_object "src_1" "chargeable" "pi_0")))
      demo_store in
  r = (Throw no_such_intent, demo_store,
       [ConsoleLog "🔔  Webhook received! The source src_1 is chargeable.";
        StripeCall (PaymentIntentsRetrieve (VStr "pi_0"));
        StripeError no_such_intent])
  /\ ~ surfaces (E := demo_env)
         (post_webhook (E := demo_env)
            (delivery (event "source.chargeable"
                             (source_object "src_1" "chargeable" "pi_0")))).
Proof.
  split; [reflexivity|].
  intros H.
  specialize (H demo_store no_such_intent).
  assert (Hin : In (StripeError no_such_intent)
                   (effects (post_webhook (E := demo_env)
                               (delivery (event "source.chargeable"
                                                (source_object "src_1" "chargeable" "pi_0")))
                               demo_store)))
    by (right; right; left; reflexivity).
  specialize (H Hin). discriminate H.
Qed.

(** C6 as the code has it, on the update of an intent that the provider does
    not know and on the retrieval of its status. *)
Lemma rejections_surface_or_propagate_witness :
  outcome (post_update_currency (E := demo_env)
             (post "pi_0" (VObj [("currency", VStr "eur")])) demo_store)
  = Ok {| res_status := 500; res_body := JsonError "No such payment_intent" |}
  /\ outcome (get_status (E := demo_env) (post "pi_0" VUndefined) demo_store)
     = Throw no_such_intent.
Proof.
  destruct (rejections_surface_or_propagate (E := demo_env)
              (post "pi_0" (VObj [("currency", VStr "eur")])) demo_store no_such_intent)
    as [Hguarded _].
  destruct (rejections_surface_or_propagate (E := demo_env)
              (post "pi_0" VUndefined) demo_store no_such_intent)
    as [_ Hunguarded].
  split.
  - apply (Hguarded post_update_currency).
    + right. right. right. left. reflexivity.
    + right. left. reflexivity.
  - apply (Hunguarded get_status).
    + right. left. reflexivity.
    + right. left. reflexivity.
Defined.

(** * Further properties of the routes *)

Section Further.

Context {E : Env}.

Ltac silence :=
  repeat first
    [ apply quiet_ret
    | apply quiet_lift
    | apply quiet_emit; first [reflexivity | assumption]
    | apply quiet_await_products; reflexivity
    | apply quiet_await_stripe; [reflexivity | intro; reflexivity]
    | apply quiet_bind; [| intro]
    | apply quiet_try_catch; [| intro]
    | match goal with
      | |- quiet _ (if ?b then _ else _) => destruct b
      | |- quiet _ (match ?x with _ => _ end) => destruct x
      end ].

(** ** The webhook: what it leaves alone *)

Lemma dispatch_skips (object eventType : value) (s : state) :
  monitor_payment_intent object eventType s = (Ok tt, s, []) ->
  source_event object (fun status => strict_eq status (VStr "chargeable")) = Ok false ->
  source_event object (includes [VStr "failed"; VStr "canceled"]) = Ok false ->
  dispatch object eventType s
  = (Ok {| res_status := 200; res_body := StatusText |}, s, []).
Proof.
  intros Hpi Hc Hf. unfold dispatch, monitor_source_chargeable.
  step. rewrite Hpi, Hc.
  rewrite (monitor_source_failed_skips object s Hf). reflexivity.
Qed.

(** An event on an object that is neither a source nor a payment intent, or
    on a payment intent under another type than the two monitored ones, is
    acknowledged with 200: nothing is logged, nothing is called. *)
Theorem webhook_acknowledges_other_events :
  forall (req : request) (object eventType kind : value) (s : state),
    delivers req object eventType ->
    get object "object" = Ok kind ->
    strict_eq kind (VStr "source") = false ->
    strict_eq kind (VStr "payment_intent") = false
    \/ (strict_eq eventType (VStr "payment_intent.succeeded") = false
        /\ strict_eq eventType (VStr "payment_intent.payment_failed") = false) ->
    post_webhook req s = (Ok {| res_status := 200; res_body := StatusText |}, s, []).
Proof.
  intros req object eventType kind s Hdel Hkind Hsource Hother.
  rewrite (post_webhook_delivers _ _ _ _ Hdel).
  apply dispatch_skips.
  - destruct Hother as [Hpi|[Hs Hf]].
    + exact (monitor_payment_intent_other object eventType kind s Hkind Hpi).
    + unfold monitor_payment_intent.
      rewrite (bind_lift_ok _ kind) by exact Hkind.
      rewrite Hs, Hf. destruct (strict_eq kind (VStr "payment_intent")); reflexivity.
  - exact (source_event_other object kind _ Hkind Hsource).
  - exact (source_event_other object kind _ Hkind Hsource).
Qed.

(** A source in another status than [chargeable], [failed] or [canceled] is
    acknowledged with 200 and no effect; its metadata is not read, so it may
    be missing. *)
Theorem webhook_acknowledges_other_source_status :
  forall (req : request) (object eventType status : value) (s : state),
    delivers req object eventType ->
    get object "object" = Ok (VStr "source") ->
    get object "status" = Ok status ->
    monitored_status status = false ->
    post_webhook req s = (Ok {| res_status := 200; res_body := StatusText |}, s, []).
Proof.
  intros req object eventType status s Hdel Hkind Hstatus Hmon.
  apply orb_false_elim in Hmon. destruct Hmon as [Hc Hf].
  rewrite (post_webhook_delivers _ _ _ _ Hdel).
  apply dispatch_skips.
  - exact (monitor_payment_intent_other object eventType (VStr "source") s Hkind eq_refl).
  - exact (source_event_status object status _ Hkind Hstatus Hc).
  - exact (source_event_status object status _ Hkind Hstatus Hf).
Qed.

(** A source whose metadata holds no intent id (the property is absent,
    empty or otherwise falsy) is acknowledged with 200 and no effect,
    whatever its status. *)
Theorem webhook_acknowledges_uncorrelated_source :
  forall (req : request) (object eventType status metadata intent_id : value) (s : state),
    delivers req object eventType ->
    get object "object" = Ok (VStr "source") ->
    get object "status" = Ok status ->
    get object "metadata" = Ok metadata ->
    get metadata "paymentIntent" = Ok intent_id ->
    truthy intent_id = false ->
    post_webhook req s = (Ok {| res_status := 200; res_body := StatusText |}, s, []).
Proof.
  intros req object eventType status metadata intent_id s
         Hdel Hkind Hstatus Hmeta Hintent Hfalsy.
  assert (Htest : forall cond, source_event object cond = Ok false).
  { intros cond. destruct (cond status) eqn:Hcond.
    - rewrite (source_event_correlated object status metadata intent_id cond)
        by assumption.
      rewrite Hfalsy. reflexivity.
    - exact (source_event_status object status cond Hkind Hstatus Hcond). }
  rewrite (post_webhook_delivers _ _ _ _ Hdel).
  apply dispatch_skips.
  - exact (monitor_payment_intent_other object eventType (VStr "source") s Hkind eq_refl).
  - apply Htest.
  - apply Htest.
Qed.

(** A source in one of the three monitored statuses whose [metadata] is
    [undefined] or [null] makes the handler throw on the read of
    [paymentIntent]: nothing is logged or called, and no answer is sent. *)
Theorem webhook_throws_on_source_without_metadata :
  forall (req : request) (object eventType status metadata : value) (s : state),
    delivers req object eventType ->
    get object "object" = Ok (VStr "source") ->
    get object "status" = Ok status ->
    monitored_status status = true ->
    get object "metadata" = Ok metadata ->
    metadata = VUndefined \/ metadata = VNull ->
    post_webhook req s = (Throw (TypeError metadata "paymentIntent"), s, []).
Proof.
  intros req object eventType status metadata s Hdel Hkind Hstatus Hmon Hmeta Hmissing.
  assert (Hread : get metadata "paymentIntent" = Throw (TypeError metadata "paymentIntent"))
    by (destruct Hmissing; subst metadata; reflexivity).
  assert (Htest : forall cond, cond status = true ->
                  source_event object cond = Throw (TypeError metadata "paymentIntent")).
  { intros cond Hcond. unfold source_event.
    rewrite Hkind. simpl. rewrite Hstatus, Hcond, Hmeta, Hread. reflexivity. }
  rewrite (post_webhook_delivers _ _ _ _ Hdel).
  unfold dispatch. unfold bind at 1.
  rewrite (monitor_payment_intent_other object eventType (VStr "source") s Hkind eq_refl).
  unfold monitor_source_chargeable, monitor_source_failed.
  destruct (strict_eq status (VStr "chargeable")) eqn:Hc.
  - rewrite (Htest _ Hc). reflexivity.
  - rewrite (source_event_status object status _ Hkind Hstatus Hc).
    unfold monitored_status in Hmon. rewrite Hc in Hmon. simpl in Hmon.
    rewrite (Htest _ Hmon). reflexivity.
Qed.

(** ** The webhook: a failed payment *)

(** A [payment_intent.payment_failed] event whose last error holds a payment
    method, or else a source, logs one line that names it (its [object], its
    [id] and its [type]) and the intent, and is acknowledged with 200; no
    call is made. *)
Theorem payment_failed_logs_method_or_source :
  forall (req : request) (object last_payment_error payment_method source : value)
         (o i t id : value) (o' i' t' id' : string) (s : state),
    delivers req object (VStr "payment_intent.payment_failed") ->
    get object "object" = Ok (VStr "payment_intent") ->
    get object "last_payment_error" = Ok last_payment_error ->
    get last_payment_error "payment_method" = Ok payment_method ->
    get last_payment_error "source" = Ok source ->
    let paymentSourceOrMethod := if truthy payment_method then payment_method else source in
    get paymentSourceOrMethod "object" = Ok o -> to_string js o = Ok o' ->
    get paymentSourceOrMethod "id" = Ok i -> to_string js i = Ok i' ->
    get paymentSourceOrMethod "type" = Ok t -> to_string js t = Ok t' ->
    get object "id" = Ok id -> to_string js id = Ok id' ->
    post_webhook req s
    = (Ok {| res_status := 200; res_body := StatusText |}, s,
       [ConsoleLog ("🔔  Webhook received! Payment on " ++ o' ++ " " ++ i'
                    ++ " of type " ++ t' ++ " for PaymentIntent " ++ id'
                    ++ " failed.")%string]).
Proof.
  intros req object last_payment_error payment_method source o i t id o' i' t' id' s
         Hdel Hkind Hlast Hmethod Hsource chosen Ho Ho' Hi Hi' Ht Ht' Hid Hid'.
  rewrite (post_webhook_delivers _ _ _ _ Hdel).
  unfold dispatch, monitor_payment_intent, monitor_source_chargeable,
    monitor_source_failed.
  rewrite (source_event_other object (VStr "payment_intent")) by (exact Hkind || reflexivity).
  rewrite (source_event_other object (VStr "payment_intent")) by (exact Hkind || reflexivity).
  step. rewrite Hkind. simpl. rewrite Hlast, Hmethod.
  subst chosen. revert Ho Hi Ht.
  destruct (truthy payment_method); intros Ho Hi Ht;
    repeat progress (simpl; rewrite ?Hsource, ?Ho, ?Ho', ?Hi, ?Hi', ?Ht, ?Ht', ?Hid, ?Hid');
    reflexivity.
Qed.

(** A [payment_intent.payment_failed] event whose last error holds neither a
    payment method nor a source makes the handler throw on the read of
    [object]: nothing is logged, no answer is sent. *)
Theorem payment_failed_without_method_or_source_throws :
  forall (req : request) (object last_payment_error payment_method source : value)
         (s : state),
    delivers req object (VStr "payment_intent.payment_failed") ->
    get object "object" = Ok (VStr "payment_intent") ->
    get object "last_payment_error" = Ok last_payment_error ->
    get last_payment_error "payment_method" = Ok payment_method ->
    truthy payment_method = false ->
    get last_payment_error "source" = Ok source ->
    source = VUndefined \/ source = VNull ->
    post_webhook req s = (Throw (TypeError source "object"), s, []).
Proof.
  intros req object last_payment_error payment_method source s
         Hdel Hkind Hlast Hmethod Hfalsy Hsource Hmissing.
  assert (Hread : get source "object" = Throw (TypeError source "object"))
    by (destruct Hmissing; subst source; reflexivity).
  rewrite (post_webhook_delivers _ _ _ _ Hdel).
  unfold dispatch, monitor_payment_intent.
  step. rewrite Hkind. simpl. rewrite Hlast, Hmethod, Hfalsy, Hsource, Hread.
  reflexivity.
Qed.

(** ** The webhook: what it reads of a request *)

(** With a signing secret the handler runs on the raw body and the signature
    header alone, the parsed body has no part in it; without one it runs on
    the parsed body alone. *)
Theorem webhook_reads_the_authenticated_event :
  forall (req1 req2 : request) (s : state),
    same_delivery req1 req2 ->
    post_webhook req1 s = post_webhook req2 s.
Proof.
  intros req1 req2 s Hsame.
  unfold same_delivery in Hsame. unfold post_webhook, webhook_event.
  destruct (configured_secret config) as [secret|].
  - destruct Hsame as [Hraw Hsig]. rewrite Hraw, Hsig. reflexivity.
  - rewrite Hsame. reflexivity.
Qed.

(** ** The webhook: what every delivery keeps *)

Lemma final_bind {A B : Type} (m : run A) (k : A -> run B) (s : state) :
  final (bind m k s) =
  match outcome (m s) with
  | Ok a => final (k a (final (m s)))
  | Throw _ => final (m s)
  end.
Proof.
  unfold bind, outcome, final.
  destruct (m s) as [[[a|e] s1] t1]; simpl; [|reflexivity].
  destruct (k a s1) as [[r s2] t2]. reflexivity.
Qed.

Lemma final_try_catch {A : Type} (m : run A) (h : error -> run A) (s : state) :
  final (try_catch m h s) =
  match outcome (m s) with
  | Ok _ => final (m s)
  | Throw e => final (h e (final (m s)))
  end.
Proof.
  unfold try_catch, outcome, final.
  destruct (m s) as [[[a|e] s1] t1]; simpl; [reflexivity|].
  destruct (h e s1) as [[r s2] t2]. reflexivity.
Qed.

Lemma stateless_ret {A : Type} (a : A) : stateless (ret a).
Proof. intros s. reflexivity. Qed.

Lemma stateless_lift {A : Type} (r : result A) : stateless (lift r).
Proof. intros s. reflexivity. Qed.

Lemma stateless_emit (e : effect) : stateless (emit e).
Proof. intros s. reflexivity. Qed.

Lemma stateless_bind {A B : Type} (m : run A) (k : A -> run B) :
  stateless m -> (forall a, stateless (k a)) -> stateless (bind m k).
Proof.
  intros Hm Hk s. rewrite final_bind, Hm.
  destruct (outcome (m s)); [apply Hk | reflexivity].
Qed.

Lemma stateless_try_catch {A : Type} (m : run A) (h : error -> run A) :
  stateless m -> (forall e, stateless (h e)) -> stateless (try_catch m h).
Proof.
  intros Hm Hh s. rewrite final_try_catch, Hm.
  destruct (outcome (m s)); [reflexivity | apply Hh].
Qed.

Ltac still :=
  repeat first
    [ apply stateless_ret
    | apply stateless_lift
    | apply stateless_emit
    | apply stateless_bind; [| intro]
    | apply stateless_try_catch; [| intro]
    | match goal with
      | |- stateless (if ?b then _ else _) => destruct b
      | |- stateless (match ?x with _ => _ end) => destruct x
      end ].

Lemma stateless_webhook_event (req : request) : stateless (webhook_event req).
Proof. unfold webhook_event, sendStatus. still. Qed.

Lemma stateless_monitor_payment_intent (object eventType : value) :
  stateless (monitor_payment_intent object eventType).
Proof. unfold monitor_payment_intent. still. Qed.

Lemma quiet_monitor_payment_intent_calls (P : effect -> bool) (object eventType : value) :
  (forall text, P (ConsoleLog text) = false) ->
  quiet P (monitor_payment_intent object eventType).
Proof.
  intros H. unfold monitor_payment_intent.
  repeat first
    [ apply quiet_ret
    | apply quiet_lift
    | apply quiet_emit; apply H
    | apply quiet_bind; [| intro]
    | match goal with
      | |- quiet _ (if ?b then _ else _) => destruct b
      end ].
Qed.

Lemma count_zero_filter (P : effect -> bool) (t : list effect) :
  count P t = 0 -> filter P t = [].
Proof.
  unfold count. destruct (filter P t); [reflexivity | discriminate].
Qed.

(** The run of the chargeable block: its calls, in the order of the source. *)
Lemma monitor_source_chargeable_calls (object : value) (s : state) :
  filter is_stripe_call (effects (monitor_source_chargeable object s)) = []
  \/ exists intent_id,
      (exists e s1,
          paymentIntents_retrieve stripe intent_id s = (Throw e, s1)
          /\ outcome (monitor_source_chargeable object s) = Throw e
          /\ filter is_stripe_call (effects (monitor_source_chargeable object s))
             = [StripeCall (PaymentIntentsRetrieve intent_id)])
      \/ (exists paymentIntent s1,
             paymentIntents_retrieve stripe intent_id s = (Ok paymentIntent, s1)
             /\ pi_status paymentIntent <> "requires_payment_method"
             /\ monitor_source_chargeable object s
                = (Ok (Some {| res_status := 403; res_body := StatusText |}), s1,
                   effects (monitor_source_chargeable object s))
             /\ filter is_stripe_call (effects (monitor_source_chargeable object s))
                = [StripeCall (PaymentIntentsRetrieve intent_id)])
      \/ (exists paymentIntent s1 source_id,
             paymentIntents_retrieve stripe intent_id s = (Ok paymentIntent, s1)
             /\ pi_status paymentIntent = "requires_payment_method"
             /\ get object "id" = Ok source_id
             /\ source_event object (fun status => strict_eq status (VStr "chargeable"))
                = Ok true
             /\ filter is_stripe_call (effects (monitor_source_chargeable object s))
                = [StripeCall (PaymentIntentsRetrieve intent_id);
                   StripeCall (PaymentIntentsConfirm (VStr (pi_id paymentIntent))
                                                     (VObj [("source", source_id)]))]).
Proof.
  unfold monitor_source_chargeable. step.
  destruct (source_event object _) as [[|]|] eqn:Htest; try (left; reflexivity).
  destruct (get object "id") as [source_id|] eqn:Hid; simpl; [|left; reflexivity].
  destruct (to_string js source_id) as [text|]; simpl; [|left; reflexivity].
  destruct (get object "metadata") as [metadata|]; simpl; [|left; reflexivity].
  destruct (get metadata "paymentIntent") as [intent_id|]; simpl; [|left; reflexivity].
  right. exists intent_id.
  destruct (paymentIntents_retrieve stripe intent_id s) as [[paymentIntent|e] s1] eqn:Hr;
    simpl.
  - destruct (String.eqb (pi_status paymentIntent) "requires_payment_method") eqn:Hs; simpl.
    + right. right. exists paymentIntent, s1, source_id.
      apply String.eqb_eq in Hs.
      repeat split; try assumption; try reflexivity.
      destruct (paymentIntents_confirm stripe _ _ s1) as [[c|e] s2]; reflexivity.
    + right. left. exists paymentIntent, s1.
      apply String.eqb_neq in Hs.
      repeat split; try assumption; reflexivity.
  - left. exists e, s1. repeat split.
Qed.

Lemma monitor_source_failed_calls (object : value) (s : state) :
  effects (monitor_source_failed object s) = []
  \/ (source_event object (includes [VStr "failed"; VStr "canceled"]) = Ok true
      /\ exists intent_id,
          filter is_stripe_call (effects (monitor_source_failed object s))
          = [StripeCall (PaymentIntentsCancel intent_id)]
          \/ filter is_stripe_call (effects (monitor_source_failed object s)) = []).
Proof.
  unfold monitor_source_failed. step.
  destruct (source_event object _) as [[|]|] eqn:Htest; try (left; reflexivity).
  right. split; [reflexivity|].
  destruct (get object "id") as [source_id|]; simpl;
    [|exists VUndefined; right; reflexivity].
  destruct (to_string js source_id) as [text|]; simpl;
    [|exists VUndefined; right; reflexivity].
  destruct (get object "metadata") as [metadata|]; simpl;
    [|exists VUndefined; right; reflexivity].
  destruct (get metadata "paymentIntent") as [intent_id|]; simpl;
    [|exists VUndefined; right; reflexivity].
  exists intent_id. left.
  destruct (paymentIntents_cancel stripe intent_id s) as [[c|e] s1]; reflexivity.
Qed.

Lemma filter_effects_bind {A B : Type} (P : effect -> bool) (m : run A) (k : A -> run B)
      (s : state) :
  filter P (effects (bind m k s)) =
  filter P (effects (m s)) ++
  match outcome (m s) with
  | Ok a => filter P (effects (k a (final (m s))))
  | Throw _ => []
  end.
Proof.
  rewrite effects_bind, filter_app. destruct (outcome (m s)); reflexivity.
Qed.

Lemma dispatch_calls (object eventType : value) (s : state) :
  guarded_calls s (filter is_stripe_call (effects (dispatch object eventType s))).
Proof.
  unfold dispatch.
  rewrite filter_effects_bind.
  rewrite (count_zero_filter _ _
             (quiet_monitor_payment_intent_calls is_stripe_call object eventType
                (fun _ => eq_refl) s)).
  rewrite stateless_monitor_payment_intent.
  destruct (outcome (monitor_payment_intent object eventType s)); [|left; reflexivity].
  rewrite filter_effects_bind. simpl app.
  assert (Hrest : forall (o : option response) (s' : state),
             filter is_stripe_call
               (effects (match o with
                         | Some res => ret res
                         | None => monitor_source_failed object ;; sendStatus 200
                         end s'))
             = match o with
               | Some _ => []
               | None => filter is_stripe_call (effects (monitor_source_failed object s'))
               end).
  { intros [res|] s'; [reflexivity|].
    rewrite filter_effects_bind.
    destruct (outcome (monitor_source_failed object s')); [|apply app_nil_r].
    simpl. apply app_nil_r. }
  destruct (monitor_source_chargeable_calls object s)
    as [Hnone | [intent_id [Hrejected | [Hrefused | Hconfirmed]]]].
  - rewrite Hnone. simpl app.
    destruct (outcome (monitor_source_chargeable object s)) as [o|]; [|left; reflexivity].
    rewrite Hrest. destruct o as [res|]; [left; reflexivity|].
    destruct (monitor_source_failed_calls object (final (monitor_source_chargeable object s)))
      as [Hskip | [_ [x [Hcancel | Hnothing]]]].
    + rewrite Hskip. left. reflexivity.
    + rewrite Hcancel. right. left. exists x. reflexivity.
    + rewrite Hnothing. left. reflexivity.
  - destruct Hrejected as (e & s1 & Hretrieve & Hout & Hcalls).
    rewrite Hcalls, Hout. right. right. left. exists intent_id.
    split; [reflexivity|]. left. exists e, s1. exact Hretrieve.
  - destruct Hrefused as (paymentIntent & s1 & Hretrieve & Hstatus & Hrun & Hcalls).
    rewrite Hcalls. rewrite Hrun. simpl.
    right. right. left. exists intent_id.
    split; [reflexivity|]. right. exists paymentIntent, s1. split; assumption.
  - destruct Hconfirmed as (paymentIntent & s1 & source_id & Hretrieve & Hstatus & _ & Htest
                            & Hcalls).
    rewrite Hcalls.
    assert (Hno : match outcome (monitor_source_chargeable object s) with
                  | Ok a =>
                      filter is_stripe_call
                        (effects (match a with
                                  | Some res => ret res
                                  | None => monitor_source_failed object ;; sendStatus 200
                                  end (final (monitor_source_chargeable object s))))
                  | Throw _ => []
                  end = []).
    { destruct (outcome (monitor_source_chargeable object s)) as [o|]; [|reflexivity].
      rewrite Hrest. destruct o as [res|]; [reflexivity|].
      rewrite (monitor_source_failed_skips object _ (source_event_exclusive object Htest)).
      reflexivity. }
    rewrite Hno, app_nil_r.
    right. right. right. exists intent_id, paymentIntent, s1, source_id.
    repeat split; assumption.
Qed.

(** Whatever is delivered, and whatever the provider answers, the calls of
    one run of the webhook are of one of four shapes: none; one
    cancellation; one retrieval, rejected or of an intent that is not in the
    status ["requires_payment_method"]; or the retrieval of an intent that
    the provider, in its state at the delivery, reports in that status,
    followed by the confirmation of that same intent.  So the handler
    confirms no intent without having checked its status, cancels none after
    a retrieval, and never creates or updates one. *)
Theorem webhook_calls_are_guarded :
  forall (req : request) (s : state),
    guarded_calls s (filter is_stripe_call (effects (post_webhook req s))).
Proof.
  intros req s. unfold post_webhook.
  rewrite filter_effects_bind.
  rewrite (count_zero_filter _ _ (quiet_webhook_event is_stripe_call req eq_refl s)).
  rewrite stateless_webhook_event. simpl app.
  destruct (outcome (webhook_event req s)) as [[res|[data eventType]]|];
    try (left; reflexivity).
  rewrite filter_effects_bind.
  destruct (get data "object") as [object|]; [|left; reflexivity].
  apply dispatch_calls.
Qed.

Lemma webhook_event_answer (req : request) (s : state) (res : response) :
  outcome (webhook_event req s) = Ok (inl res) ->
  res = {| res_status := 400; res_body := StatusText |}
  /\ configured_secret config <> None.
Proof.
  unfold webhook_event. step.
  destruct (configured_secret config) as [secret|].
  - destruct (webhooks_constructEvent stripe _ _ secret) as [event|e]; simpl.
    + destruct (get event "data"); simpl; [|discriminate].
      destruct (get event "type"); simpl; discriminate.
    + intros H. injection H as <-. split; [reflexivity | discriminate].
  - destruct (get (req_body req) "data"); simpl; [|discriminate].
    destruct (get (req_body req) "type"); simpl; discriminate.
Qed.

Lemma monitor_source_chargeable_answer (object : value) (s : state) (res : response) :
  outcome (monitor_source_chargeable object s) = Ok (Some res) ->
  res = {| res_status := 403; res_body := StatusText |}.
Proof.
  unfold monitor_source_chargeable. step.
  destruct (source_event object _) as [[|]|]; simpl; try discriminate.
  destruct (get object "id") as [source_id|]; simpl; [|discriminate].
  destruct (to_string js source_id); simpl; [|discriminate].
  destruct (get object "metadata") as [metadata|]; simpl; [|discriminate].
  destruct (get metadata "paymentIntent") as [intent_id|]; simpl; [|discriminate].
  destruct (paymentIntents_retrieve stripe intent_id s) as [[paymentIntent|e] s1]; simpl;
    [|discriminate].
  destruct (String.eqb (pi_status paymentIntent) "requires_payment_method"); simpl.
  - destruct (paymentIntents_confirm stripe _ _ s1) as [[c|e] s2]; simpl; discriminate.
  - intros H. injection H as <-. reflexivity.
Qed.

(** Every answer of the webhook is a bare status, and the status is 200, 400
    or 403; a 400 is only sent when a signing secret is configured. *)
Theorem webhook_answers_200_400_403 :
  forall (req : request) (s : state) (res : response),
    outcome (post_webhook req s) = Ok res ->
    webhook_answer res
    /\ (res_status res = 400 -> configured_secret config <> None).
Proof.
  intros req s res. unfold post_webhook. rewrite outcome_bind.
  destruct (outcome (webhook_event req s)) as [[res0|[data eventType]]|] eqn:Hev;
    [| |discriminate].
  - intros H. injection H as <-.
    destruct (webhook_event_answer req s res0 Hev) as [-> Hsecret].
    split; [split; [reflexivity | right; left; reflexivity] | intros _; exact Hsecret].
  - rewrite outcome_bind.
    destruct (get data "object") as [object|]; simpl; [|discriminate].
    change (outcome (lift (Ok object) (final (webhook_event req s)))) with (Ok object).
    cbv beta iota. unfold dispatch. rewrite outcome_bind.
    destruct (outcome (monitor_payment_intent object eventType _)); [|discriminate].
    rewrite outcome_bind.
    destruct (outcome (monitor_source_chargeable object _)) as [[res0|]|] eqn:Hc;
      [| |discriminate].
    + intros H. injection H as <-.
      rewrite (monitor_source_chargeable_answer _ _ _ Hc).
      split; [split; [reflexivity | right; right; reflexivity] | discriminate].
    + rewrite outcome_bind.
      destruct (outcome (monitor_source_failed object _)); [|discriminate].
      intros H. injection H as <-.
      split; [split; [reflexivity | left; reflexivity] | discriminate].
Qed.

(** The run of the webhook on a correlated chargeable source whose id
    prints, from a state in which the retrieval resolves. *)
Lemma post_webhook_chargeable
      (req : request) (object eventType metadata intent_id source_id : value)
      (text : string) (paymentIntent : payment_intent) (s s1 : state) :
  delivers req object eventType ->
  get object "object" = Ok (VStr "source") ->
  get object "status" = Ok (VStr "chargeable") ->
  get object "metadata" = Ok metadata ->
  get metadata "paymentIntent" = Ok intent_id ->
  truthy intent_id = true ->
  get object "id" = Ok source_id ->
  to_string js source_id = Ok text ->
  paymentIntents_retrieve stripe intent_id s = (Ok paymentIntent, s1) ->
  let chargeable :=
    ConsoleLog ("🔔  Webhook received! The source " ++ text ++ " is chargeable.")%string in
  let retrieve := StripeCall (PaymentIntentsRetrieve intent_id) in
  let params := VObj [("source", source_id)] in
  let confirm := StripeCall (PaymentIntentsConfirm (VStr (pi_id paymentIntent)) params) in
  post_webhook req s =
    if String.eqb (pi_status paymentIntent) "requires_payment_method" then
      match paymentIntents_confirm stripe (VStr (pi_id paymentIntent)) params s1 with
      | (Ok _, s2) =>
          (Ok {| res_status := 200; res_body := StatusText |}, s2,
           [chargeable; retrieve; confirm])
      | (Throw e, s2) => (Throw e, s2, [chargeable; retrieve; confirm; StripeError e])
      end
    else (Ok {| res_status := 403; res_body := StatusText |}, s1, [chargeable; retrieve]).
Proof.
  intros Hdel Hkind Hstatus Hmeta Hintent Htruthy Hid Htext Hretrieve
         chargeable retrieve params confirm.
  rewrite (post_webhook_delivers _ _ _ _ Hdel).
  unfold dispatch, monitor_source_chargeable, monitor_source_failed.
  rewrite (source_event_correlated object (VStr "chargeable") metadata intent_id)
    by (assumption || reflexivity).
  rewrite (source_event_status object (VStr "chargeable"))
    by (assumption || reflexivity).
  rewrite Htruthy. step.
  rewrite (monitor_payment_intent_other object eventType (VStr "source"))
    by (exact Hkind || reflexivity).
  simpl. rewrite Hid, Htext, Hmeta, Hintent, Hretrieve. simpl.
  destruct (String.eqb (pi_status paymentIntent) "requires_payment_method"); simpl;
    [|reflexivity].
  fold params.
  destruct (paymentIntents_confirm stripe (VStr (pi_id paymentIntent)) params s1)
    as [[c|e] s2]; reflexivity.
Qed.

(** A chargeable source delivered a second time is refused: when the first
    delivery has confirmed the intent and the provider then reports it in
    another status than ["requires_payment_method"], the second delivery
    retrieves the intent, answers 403, and confirms nothing. *)
Theorem duplicate_chargeable_delivery_is_refused :
  forall (req : request) (object eventType metadata intent_id source_id : value)
         (text : string) (before confirmed after : payment_intent) (s s1 s2 s3 : state),
    delivers req object eventType ->
    get object "object" = Ok (VStr "source") ->
    get object "status" = Ok (VStr "chargeable") ->
    get object "metadata" = Ok metadata ->
    get metadata "paymentIntent" = Ok intent_id ->
    truthy intent_id = true ->
    get object "id" = Ok source_id ->
    to_string js source_id = Ok text ->
    paymentIntents_retrieve stripe intent_id s = (Ok before, s1) ->
    pi_status before = "requires_payment_method" ->
    paymentIntents_confirm stripe (VStr (pi_id before)) (VObj [("source", source_id)]) s1
    = (Ok confirmed, s2) ->
    paymentIntents_retrieve stripe intent_id s2 = (Ok after, s3) ->
    pi_status after <> "requires_payment_method" ->
    let first := post_webhook req s in
    outcome first = Ok {| res_status := 200; res_body := StatusText |}
    /\ final first = s2
    /\ post_webhook req (final first)
       = (Ok {| res_status := 403; res_body := StatusText |}, s3,
          [ConsoleLog ("🔔  Webhook received! The source " ++ text
                       ++ " is chargeable.")%string;
           StripeCall (PaymentIntentsRetrieve intent_id)]).
Proof.
  intros req object eventType metadata intent_id source_id text before confirmed after
         s s1 s2 s3 Hdel Hkind Hstatus Hmeta Hintent Htruthy Hid Htext
         Hfirst Hbefore Hconfirm Hsecond Hafter first.
  assert (Hrun1 : first =
                  (Ok {| res_status := 200; res_body := StatusText |}, s2,
                   [ConsoleLog ("🔔  Webhook received! The source " ++ text
                                ++ " is chargeable.")%string;
                    StripeCall (PaymentIntentsRetrieve intent_id);
                    StripeCall (PaymentIntentsConfirm (VStr (pi_id before))
                                                      (VObj [("source", source_id)]))])).
  { subst first.
    rewrite (post_webhook_chargeable req object eventType metadata intent_id source_id
               text before s s1) by assumption.
    cbv zeta. apply String.eqb_eq in Hbefore. rewrite Hbefore, Hconfirm. reflexivity. }
  rewrite Hrun1. split; [reflexivity|]. split; [reflexivity|].
  change (final (Ok {| res_status := 200; res_body := StatusText |}, s2,
                 [ConsoleLog ("🔔  Webhook received! The source " ++ text
                              ++ " is chargeable.")%string;
                  StripeCall (PaymentIntentsRetrieve intent_id);
                  StripeCall (PaymentIntentsConfirm (VStr (pi_id before))
                                                    (VObj [("source", source_id)]))]))
    with s2.
  rewrite (post_webhook_chargeable req object eventType metadata intent_id source_id
             text after s2 s3) by assumption.
  cbv zeta. apply String.eqb_neq in Hafter. rewrite Hafter. reflexivity.
Qed.

(** ** The routes on a PaymentIntent: bodies and parameters *)

(** A request without a body (the body is [undefined] or [null]) makes each
    of the five routes that read one throw a TypeError on its first read:
    the destructuring is outside the [try] block, so no answer is sent, and
    nothing is called. *)
Theorem routes_throw_without_body :
  forall (route : request -> run response) (req : request) (s : state),
    In route [post_payment_intents; post_update_quantity; post_create_checkout_session;
              post_shipping_change; post_update_currency] ->
    req_body req = VUndefined \/ req_body req = VNull ->
    exists prop, route req s = (Throw (TypeError (req_body req) prop), s, []).
Proof.
  intros route req s Hroute Hbody.
  destruct Hroute as [<-|[<-|[<-|[<-|[<-|[]]]]]];
    [ unfold post_payment_intents | unfold post_update_quantity
    | unfold post_create_checkout_session | unfold post_shipping_change
    | unfold post_update_currency ];
    destruct Hbody as [-> | ->]; eexists; reflexivity.
Qed.

(** Every intent that [POST /payment_intents] creates for a body that is an
    object carries, as its metadata, the campaign id, the product id and the
    quantity of the body, as its description the product name and as its
    currency the currency of the body, each as it was sent (an absent one is
    [undefined]). *)
Theorem create_carries_the_correlation_metadata :
  forall (req : request) (props : list (string * value)) (s : state) (params : value),
    req_body req = VObj props ->
    In (StripeCall (PaymentIntentsCreate params)) (effects (post_payment_intents req s)) ->
    get params "metadata"
    = Ok (VObj [("campaign_id", own_prop "campaignId" props);
                ("product_id", own_prop "productId" props);
                ("quantity", own_prop "quantity" props)])
    /\ get params "description" = Ok (own_prop "productName" props)
    /\ get params "currency" = Ok (own_prop "currency" props).
Proof.
  intros req props s params Hbody.
  unfold post_payment_intents. rewrite Hbody. step. simpl.
  destruct (js_mul js (own_prop "price" props) (own_prop "quantity" props)) as [pq|e0];
    simpl.
  - destruct (paymentIntents_create stripe _ s) as [[paymentIntent|e] s1]; simpl;
      intros H; repeat (destruct H as [H|H]; try discriminate); try contradiction;
      injection H as <-; repeat split.
  - intros [H|[]]. discriminate.
Qed.

(** A price or a quantity that the engine cannot convert to a number is
    answered like a rejection of the provider, with 500 and the message of
    the error of the conversion, although no call has been made. *)
Theorem create_answers_500_on_a_failed_conversion :
  forall (req : request) (props : list (string * value)) (e : error) (s : state),
    req_body req = VObj props ->
    js_mul js (own_prop "price" props) (own_prop "quantity" props) = Throw e ->
    post_payment_intents req s
    = (Ok {| res_status := 500; res_body := JsonError (message js e) |}, s,
       [ConsoleLogError e]).
Proof.
  intros req props e s Hbody Hmul.
  unfold post_payment_intents. rewrite Hbody. step. simpl. rewrite Hmul. reflexivity.
Qed.

Lemma mul_nan_l (x : float) : (nan * x)%float = nan.
Proof.
  apply Prim2SF_inj. rewrite mul_spec. reflexivity.
Qed.

Lemma mul_nan_r (x : float) : (x * nan)%float = nan.
Proof.
  apply Prim2SF_inj. rewrite mul_spec.
  change (Prim2SF nan) with S754_nan.
  destruct (Prim2SF x); reflexivity.
Qed.

(** The route does not validate its body: when the price or the quantity is
    absent, whatever number the other one is, the intent is still created,
    and the amount asked of the provider is NaN. *)
Theorem create_without_price_or_quantity_asks_for_nan :
  forall (req : request) (props : list (string * value)) (p q : float) (s : state),
    req_body req = VObj props ->
    to_number js (own_prop "price" props) = Ok p ->
    to_number js (own_prop "quantity" props) = Ok q ->
    own_prop "price" props = VUndefined \/ own_prop "quantity" props = VUndefined ->
    exists params : value,
      hd_error (effects (post_payment_intents req s))
      = Some (StripeCall (PaymentIntentsCreate params))
      /\ get params "amount" = Ok (VNum nan).
Proof.
  intros req props p q s Hbody Hp Hq Habsent.
  assert (Hnan : (p * q * 100)%float = nan).
  { destruct Habsent as [H|H]; rewrite H in *.
    - injection Hp as <-. rewrite !mul_nan_l. reflexivity.
    - injection Hq as <-. rewrite mul_nan_r, mul_nan_l. reflexivity. }
  assert (Hmul : js_mul js (own_prop "price" props) (own_prop "quantity" props)
                 = Ok (p * q)%float)
    by (unfold js_mul; rewrite Hp, Hq; reflexivity).
  pose proof (post_payment_intents_run req props _ s Hbody Hmul) as Hrun.
  cbv zeta in Hrun. rewrite Hnan in Hrun.
  eexists. rewrite Hrun.
  destruct (paymentIntents_create stripe _ s) as [[paymentIntent|e] s1];
    split; reflexivity.
Qed.

(** [update_quantity] on a body with the numbers [price] and [quantity]
    makes one call: it updates the intent named in the path with the amount
    [price * quantity * 100] and the metadata of the body, and answers 200
    with the updated intent, or 500 with the message of the rejection. *)
Theorem update_quantity_updates_amount_and_metadata :
  forall (req : request) (props : list (string * value)) (price quantity : float)
         (s : state),
    req_body req = VObj props ->
    own_prop "price" props = VNum price ->
    own_prop "quantity" props = VNum quantity ->
    let params :=
      VObj [("amount", VNum (price * quantity * 100));
            ("metadata", VObj [("campaign_id", own_prop "campaignId" props);
                               ("product_id", own_prop "productId" props);
                               ("quantity", VNum quantity)])] in
    let update := StripeCall (PaymentIntentsUpdate (req_params_id req) params) in
    post_update_quantity req s =
      match paymentIntents_update stripe (req_params_id req) params s with
      | (Ok paymentIntent, s1) =>
          (Ok {| res_status := 200; res_body := JsonPaymentIntent paymentIntent |}, s1,
           [update])
      | (Throw e, s1) =>
          (Ok {| res_status := 500; res_body := JsonError (message js e) |}, s1,
           [update; StripeError e; ConsoleLogError e])
      end.
Proof.
  intros req props price quantity s Hbody Hprice Hquantity params update.
  unfold post_update_quantity. rewrite Hbody. step. simpl.
  rewrite Hprice, Hquantity. simpl. unfold update_quantity_params. fold params.
  destruct (paymentIntents_update stripe (req_params_id req) params s)
    as [[paymentIntent|e] s1]; reflexivity.
Qed.

(** ** The amount of a basket and the shipping cost *)

(** Whatever the basket, [calculatePaymentAmount] asks for the listing once
    and first.  An empty basket amounts to 0; a basket that is not an array
    throws a TypeError; and a rejection of the listing is thrown on. *)
Theorem amount_of_degenerate_baskets :
  forall (items : value) (s : state),
    effects (calculatePaymentAmount items s) = [ProductsList]
    /\ (forall productList s1,
           products_list products s = (Ok productList, s1) ->
           items = VArr [] ->
           calculatePaymentAmount items s = (Ok 0%float, s1, [ProductsList]))
    /\ (forall productList s1,
           products_list products s = (Ok productList, s1) ->
           (forall elems, items <> VArr elems) ->
           calculatePaymentAmount items s
           = (Throw (TypeError items "reduce"), s1, [ProductsList]))
    /\ (forall e s1,
           products_list products s = (Throw e, s1) ->
           calculatePaymentAmount items s = (Throw e, s1, [ProductsList])).
Proof.
  intros items s. unfold calculatePaymentAmount. step. repeat split.
  - destruct (products_list products s) as [[productList|e] s1]; cbv beta iota;
      [|reflexivity].
    destruct (as_array items) as [its|e]; cbv beta iota; [|reflexivity].
    match goal with |- context [reduce ?f its ?a] => destruct (reduce f its a) end;
      reflexivity.
  - intros productList s1 Hlist ->. rewrite Hlist. reflexivity.
  - intros productList s1 Hlist Hnot. rewrite Hlist. simpl.
    destruct items; try reflexivity. exfalso. exact (Hnot elems eq_refl).
  - intros e s1 Hlist. rewrite Hlist. reflexivity.
Qed.

(** The run of [shipping_change] once the amount of the basket and the cost
    of the shipping option are known. *)
Lemma post_shipping_change_run (req : request) (props : list (string * value))
      (amount cost : float) (option_id : value) (s s0 : state) (t0 : list effect) :
  req_body req = VObj props ->
  calculatePaymentAmount (own_prop "items" props) s = (Ok amount, s0, t0) ->
  get (own_prop "shippingOption" props) "id" = Ok option_id ->
  products_getShippingCost products option_id = Ok cost ->
  let params := VObj [("amount", VNum (amount + cost))] in
  let update := StripeCall (PaymentIntentsUpdate (req_params_id req) params) in
  post_shipping_change req s =
    match paymentIntents_update stripe (req_params_id req) params s0 with
    | (Ok paymentIntent, s1) =>
        (Ok {| res_status := 200; res_body := JsonPaymentIntent paymentIntent |}, s1,
         t0 ++ [update])
    | (Throw e, s1) =>
        (Ok {| res_status := 500; res_body := JsonError (message js e) |}, s1,
         t0 ++ [update; StripeError e])
    end.
Proof.
  intros Hbody Hamount Hid Hcost params update.
  unfold post_shipping_change. rewrite Hbody.
  cbv beta iota delta [bind try_catch lift emit await_stripe ret json].
  simpl get. cbv beta iota. rewrite Hamount. cbv beta iota.
  rewrite Hid. cbv beta iota. rewrite Hcost. cbv beta iota.
  fold params.
  destruct (paymentIntents_update stripe (req_params_id req) params s0)
    as [[paymentIntent|e] s1]; cbv beta iota; rewrite ?app_nil_r; reflexivity.
Qed.

(** [shipping_change] on a basket all of whose items resolve and a shipping
    option with a known cost lists the catalog, then makes one call: it
    updates the intent named in the path with the amount of the basket plus
    the cost of the option, and answers 200 with the updated intent, or 500
    with the message of the rejection. *)
Theorem shipping_change_adds_the_shipping_cost :
  forall (req : request) (props : list (string * value)) (items : list value)
         (productList : list product) (lines : list (sku * float))
         (option_id : value) (cost : float) (s s0 : state),
    req_body req = VObj props ->
    own_prop "items" props = VArr items ->
    products_list products s = (Ok productList, s0) ->
    Forall2 (resolves (listing_skus productList)) items lines ->
    get (own_prop "shippingOption" props) "id" = Ok option_id ->
    products_getShippingCost products option_id = Ok cost ->
    let params := VObj [("amount", VNum (basket_total lines + cost))] in
    let update := StripeCall (PaymentIntentsUpdate (req_params_id req) params) in
    post_shipping_change req s =
      match paymentIntents_update stripe (req_params_id req) params s0 with
      | (Ok paymentIntent, s1) =>
          (Ok {| res_status := 200; res_body := JsonPaymentIntent paymentIntent |}, s1,
           [ProductsList; update])
      | (Throw e, s1) =>
          (Ok {| res_status := 500; res_body := JsonError (message js e) |}, s1,
           [ProductsList; update; StripeError e])
      end.
Proof.
  intros req props items productList lines option_id cost s s0
         Hbody Hitems Hlist Hlines Hid Hcost params update.
  assert (Hamount : calculatePaymentAmount (own_prop "items" props) s
                    = (Ok (basket_total lines), s0, [ProductsList])).
  { rewrite Hitems. unfold calculatePaymentAmount. step. rewrite Hlist. simpl.
    rewrite (reduce_resolves _ _ _ Hlines). reflexivity. }
  exact (post_shipping_change_run req props _ cost option_id s s0 _
           Hbody Hamount Hid Hcost).
Qed.

(** When the basket holds an item that resolves to no sku, or when the cost
    of the shipping option cannot be looked up, [shipping_change] throws:
    the lookups are outside the [try] block, so the intent is not updated
    and no answer is sent. *)
Theorem shipping_change_lookup_failure_updates_nothing :
  forall (req : request) (props : list (string * value)) (items : list value)
         (productList : list product) (s s0 : state),
    req_body req = VObj props ->
    own_prop "items" props = VArr items ->
    products_list products s = (Ok productList, s0) ->
    (forall item,
        In item items ->
        unresolved (listing_skus productList) item ->
        exists e, post_shipping_change req s = (Throw e, s0, [ProductsList]))
    /\
    (forall lines option_id e,
        Forall2 (resolves (listing_skus productList)) items lines ->
        get (own_prop "shippingOption" props) "id" = Ok option_id ->
        products_getShippingCost products option_id = Throw e ->
        post_shipping_change req s = (Throw e, s0, [ProductsList])).
Proof.
  intros req props items productList s s0 Hbody Hitems Hlist. split.
  - intros item Hin Hun.
    destruct (reduce_unresolved _ _ _ Hin Hun 0%float) as [e He].
    exists e. unfold post_shipping_change, calculatePaymentAmount.
    rewrite Hbody. step. simpl. rewrite Hitems, Hlist. simpl. rewrite He. reflexivity.
  - intros lines option_id e Hlines Hid Hcost.
    unfold post_shipping_change, calculatePaymentAmount.
    rewrite Hbody. step. simpl. rewrite Hitems, Hlist. simpl.
    rewrite (reduce_resolves _ _ _ Hlines). simpl. rewrite Hid. simpl.
    rewrite Hcost. reflexivity.
Qed.

(** ** The routes on a PaymentIntent: exceptions and answers *)

Lemma throws_early_try_catch (m : run response) (h : error -> run response) :
  (forall err s, exists res, outcome (h err s) = Ok res) ->
  throws_early (try_catch m h).
Proof.
  intros Hh s e. rewrite outcome_try_catch.
  destruct (outcome (m s)) as [a|err]; [discriminate|].
  destruct (Hh err (final (m s))) as [res ->]. discriminate.
Qed.

Lemma throws_early_bind {A : Type} (m : run A) (k : A -> run response) :
  quiet is_stripe_call m -> (forall a, throws_early (k a)) -> throws_early (bind m k).
Proof.
  intros Hm Hk s e. rewrite outcome_bind, filter_effects_bind.
  rewrite (count_zero_filter _ _ (Hm s)).
  destruct (outcome (m s)) as [a|err]; [|reflexivity].
  intros H. exact (Hk a _ e H).
Qed.

Ltac early :=
  repeat (apply throws_early_bind; [solve [silence] | intro]);
  apply throws_early_try_catch; intros err s0; eexists;
  rewrite ?outcome_bind; reflexivity.

(** An exception leaves the routes that create or update an intent only
    before they call the provider: once the call is made, whatever its
    result, the run ends with an answer. *)
Theorem guarded_routes_throw_before_any_call :
  forall (route : request -> run response) (req : request) (s : state) (e : error),
    In route [post_payment_intents; post_update_quantity;
              post_shipping_change; post_update_currency] ->
    outcome (route req s) = Throw e ->
    filter is_stripe_call (effects (route req s)) = [].
Proof.
  intros route req s e Hroute.
  assert (H : throws_early (route req)).
  { destruct Hroute as [<-|[<-|[<-|[<-|[]]]]].
    - unfold post_payment_intents, json. early.
    - unfold post_update_quantity, json. early.
    - unfold post_shipping_change, json.
      do 2 (apply throws_early_bind; [solve [silence] | intro]).
      apply throws_early_bind;
        [apply quiet_calculatePaymentAmount; reflexivity | intro].
      early.
    - unfold post_update_currency, json. early. }
  exact (H s e).
Qed.

(** ** The status of an intent *)

(** The status route makes one call, the retrieval of the intent named in
    the path, and so changes nothing at the provider; when the retrieval
    resolves it answers 200 with the status of the intent and, only when the
    intent has a last payment error, the message of that error. *)
Theorem status_route_reports_status_and_error :
  forall (req : request) (s : state),
    mutations (effects (get_status req s)) = 0
    /\ filter is_stripe_call (effects (get_status req s))
       = [StripeCall (PaymentIntentsRetrieve (req_params_id req))]
    /\ (forall paymentIntent s1,
           paymentIntents_retrieve stripe (req_params_id req) s = (Ok paymentIntent, s1) ->
           get_status req s
           = (Ok {| res_status := 200;
                    res_body := JsonStatus (pi_status paymentIntent)
                                  (option_map pe_message
                                     (pi_last_payment_error paymentIntent)) |},
              s1, [StripeCall (PaymentIntentsRetrieve (req_params_id req))])).
Proof.
  intros req s. unfold get_status. step.
  destruct (paymentIntents_retrieve stripe (req_params_id req) s)
    as [[paymentIntent|e] s1]; repeat split; try reflexivity.
  - intros paymentIntent' s1' H. injection H as <- <-.
    destruct (pi_last_payment_error paymentIntent); reflexivity.
  - intros paymentIntent' s1' H. discriminate H.
Qed.

(** ** The checkout session *)

(** [create-checkout-session] on a body whose price converts to a number
    and whose campaign id and product index print makes one call: it creates
    a session in mode [payment] with one line item, of the quantity and the
    currency of the body and of the unit amount [price * 100], that returns
    to the thank-you page on success and to the page of the product on
    cancellation.  The answer is 200 with the url of the session; a rejection
    of the creation is thrown on. *)
Theorem checkout_session_is_created_from_the_body :
  forall (req : request) (props : list (string * value)) (price : float)
         (campaign index : string) (s : state),
    req_body req = VObj props ->
    to_number js (own_prop "price" props) = Ok price ->
    to_string js (own_prop "campaignId" props) = Ok campaign ->
    to_string js (own_prop "productIndex" props) = Ok index ->
    exists params line price_data : value,
      post_create_checkout_session req s =
        match checkout_sessions_create stripe params s with
        | (Ok session, s1) =>
            (Ok {| res_status := 200; res_body := JsonUrl (session_url session) |}, s1,
             [StripeCall (CheckoutSessionsCreate params)])
        | (Throw e, s1) =>
            (Throw e, s1, [StripeCall (CheckoutSessionsCreate params); StripeError e])
        end
      /\ get params "mode" = Ok (VStr "payment")
      /\ get params "success_url" = Ok (VStr "https://brands.tempoplatform.com/thank-you")
      /\ get params "cancel_url"
         = Ok (VStr ("https://brands.tempoplatform.com/campaign/" ++ campaign
                     ++ "/product/" ++ index))
      /\ get params "line_items" = Ok (VArr [line])
      /\ get line "quantity" = Ok (own_prop "quantity" props)
      /\ get line "price_data" = Ok price_data
      /\ get price_data "currency" = Ok (own_prop "currency" props)
      /\ get price_data "unit_amount" = Ok (VNum (price * 100)).
Proof.
  intros req props price campaign index s Hbody Hprice Hcampaign Hindex.
  unfold post_create_checkout_session. rewrite Hbody.
  cbv beta iota delta [bind lift await_stripe ret json]. simpl get. cbv beta iota.
  unfold js_mul. rewrite Hprice. simpl to_number. cbv beta iota.
  rewrite Hcampaign. cbv beta iota. rewrite Hindex. cbv beta iota.
  do 3 eexists. split.
  - match goal with
    | |- context [checkout_sessions_create stripe ?p s] =>
        destruct (checkout_sessions_create stripe p s) as [[session|e] s1] eqn:Hcreate
    end.
    + rewrite Hcreate. reflexivity.
    + rewrite Hcreate. reflexivity.
  - repeat split.
Qed.

End Further.

(** * The further properties on the demo *)

(** A customer event is acknowledged and left alone. *)
Lemma webhook_acknowledges_other_events_witness :
  post_webhook (E := demo_env)
    (delivery (event "customer.created" (VObj [("id", VStr "cus_1");
                                                ("object", VStr "customer")])))
    demo_store
  = (Ok {| res_status := 200; res_body := StatusText |}, demo_store, []).
Proof.
  apply (webhook_acknowledges_other_events (E := demo_env) _
           (VObj [("id", VStr "cus_1"); ("object", VStr "customer")])
           (VStr "customer.created") (VStr "customer") demo_store).
  - delivered.
  - reflexivity.
  - reflexivity.
  - left. reflexivity.
Defined.

(** A pending source without metadata is acknowledged and left alone. *)
Lemma webhook_acknowledges_other_source_status_witness :
  post_webhook (E := demo_env)
    (delivery (event "source.pending"
                     (VObj [("id", VStr "src_1"); ("object", VStr "source");
                            ("status", VStr "pending")])))
    demo_store
  = (Ok {| res_status := 200; res_body := StatusText |}, demo_store, []).
Proof.
  apply (webhook_acknowledges_other_source_status (E := demo_env) _
           (VObj [("id", VStr "src_1"); ("object", VStr "source");
                  ("status", VStr "pending")])
           (VStr "source.pending") (VStr "pending") demo_store).
  - delivered.
  - reflexivity.
  - reflexivity.
  - reflexivity.
Defined.

(** A chargeable source with empty metadata is acknowledged and left alone. *)
Lemma webhook_acknowledges_uncorrelated_source_witness :
  post_webhook (E := demo_env)
    (delivery (event "source.chargeable"
                     (VObj [("id", VStr "src_1"); ("object", VStr "source");
                            ("status", VStr "chargeable"); ("metadata", VObj [])])))
    demo_store
  = (Ok {| res_status := 200; res_body := StatusText |}, demo_store, []).
Proof.
  apply (webhook_acknowledges_uncorrelated_source (E := demo_env) _
           (VObj [("id", VStr "src_1"); ("object", VStr "source");
                  ("status", VStr "chargeable"); ("metadata", VObj [])])
           (VStr "source.chargeable") (VStr "chargeable") (VObj []) VUndefined demo_store).
  - delivered.
  - reflexivity.
  - reflexivity.
  - reflexivity.
  - reflexivity.
  - reflexivity.
Defined.

(** A canceled source without metadata makes the handler throw. *)
Lemma webhook_throws_on_source_without_metadata_witness :
  post_webhook (E := demo_env)
    (delivery (event "source.canceled"
                     (VObj [("id", VStr "src_1"); ("object", VStr "source");
                            ("status", VStr "canceled")])))
    demo_store
  = (Throw (TypeError VUndefined "paymentIntent"), demo_store, []).
Proof.
  apply (webhook_throws_on_source_without_metadata (E := demo_env) _
           (VObj [("id", VStr "src_1"); ("object", VStr "source");
                  ("status", VStr "canceled")])
           (VStr "source.canceled") (VStr "canceled") VUndefined demo_store).
  - delivered.
  - reflexivity.
  - reflexivity.
  - reflexivity.
  - reflexivity.
  - left. reflexivity.
Defined.

(** A failed card payment is logged with its payment method. *)
Lemma payment_failed_logs_method_or_source_witness :
  post_webhook (E := demo_env)
    (delivery (event "payment_intent.payment_failed"
       (VObj [("id", VStr "pi_1"); ("object", VStr "payment_intent");
              ("last_payment_error",
               VObj [("payment_method",
                      VObj [("id", VStr "pm_1"); ("object", VStr "payment_method");
                            ("type", VStr "card")])])])))
    demo_store
  = (Ok {| res_status := 200; res_body := StatusText |}, demo_store,
     [ConsoleLog
        "🔔  Webhook received! Payment on payment_method pm_1 of type card for PaymentIntent pi_1 failed."]).
Proof.
  apply (payment_failed_logs_method_or_source (E := demo_env) _
           (VObj [("id", VStr "pi_1"); ("object", VStr "payment_intent");
                  ("last_payment_error",
                   VObj [("payment_method",
                          VObj [("id", VStr "pm_1"); ("object", VStr "payment_method");
                                ("type", VStr "card")])])])
           (VObj [("payment_method",
                   VObj [("id", VStr "pm_1"); ("object", VStr "payment_method");
                         ("type", VStr "card")])])
           (VObj [("id", VStr "pm_1"); ("object", VStr "payment_method");
                  ("type", VStr "card")])
           VUndefined
           (VStr "payment_method") (VStr "pm_1") (VStr "card") (VStr "pi_1")
           "payment_method" "pm_1" "card" "pi_1" demo_store);
    try reflexivity.
  delivered.
Defined.

(** A failed payment whose error names neither a method nor a source. *)
Lemma payment_failed_without_method_or_source_throws_witness :
  post_webhook (E := demo_env)
    (delivery (event "payment_intent.payment_failed"
       (VObj [("id", VStr "pi_1"); ("object", VStr "payment_intent");
              ("last_payment_error", VObj [("message", VStr "declined")])])))
    demo_store
  = (Throw (TypeError VUndefined "object"), demo_store, []).
Proof.
  apply (payment_failed_without_method_or_source_throws (E := demo_env) _
           (VObj [("id", VStr "pi_1"); ("object", VStr "payment_intent");
                  ("last_payment_error", VObj [("message", VStr "declined")])])
           (VObj [("message", VStr "declined")]) VUndefined VUndefined demo_store);
    try reflexivity.
  - delivered.
  - left. reflexivity.
Defined.

(** With the secret of the demo, a signed cancellation runs the same
    whatever parsed body comes with it. *)
Lemma webhook_reads_the_authenticated_event_witness :
  post_webhook (E := signed_env)
    {| req_headers := [("stripe-signature", VStr "signed")];
       req_rawBody := event "source.failed" (source_object "src_1" "failed" "pi_1");
       req_body := event "source.chargeable" (source_object "src_9" "chargeable" "pi_2");
       req_params_id := VUndefined |}
    demo_store
  = post_webhook (E := signed_env)
      (signed_delivery "signed"
         (event "source.failed" (source_object "src_1" "failed" "pi_1")))
      demo_store.
Proof.
  apply (webhook_reads_the_authenticated_event (E := signed_env)).
  split; reflexivity.
Defined.

(** The answer to a chargeable source of the demo is one of the three. *)
Lemma webhook_answers_200_400_403_witness :
  outcome (post_webhook (E := demo_env)
             (delivery (event "source.chargeable"
                              (source_object "src_2" "chargeable" "pi_2")))
             demo_store)
  = Ok {| res_status := 403; res_body := StatusText |}
  /\ webhook_answer {| res_status := 403; res_body := StatusText |}.
Proof.
  split; [reflexivity|].
  apply (webhook_answers_200_400_403 (E := demo_env)
           (delivery (event "source.chargeable"
                            (source_object "src_2" "chargeable" "pi_2")))
           demo_store).
  reflexivity.
Defined.

(** The second delivery of the chargeable source of [pi_1] is refused. *)
Lemma duplicate_chargeable_delivery_is_refused_witness :
  let req :=
    delivery (event "source.chargeable" (source_object "src_1" "chargeable" "pi_1")) in
  let first := post_webhook (E := demo_env) req demo_store in
  outcome first = Ok {| res_status := 200; res_body := StatusText |}
  /\ final first = set_status "pi_1" "succeeded" demo_store
  /\ post_webhook (E := demo_env) req (final first)
     = (Ok {| res_status := 403; res_body := StatusText |},
        set_status "pi_1" "succeeded" demo_store,
        [ConsoleLog "🔔  Webhook received! The source src_1 is chargeable.";
         StripeCall (PaymentIntentsRetrieve (VStr "pi_1"))]).
Proof.
  apply (duplicate_chargeable_delivery_is_refused (E := demo_env)
           (delivery (event "source.chargeable"
                            (source_object "src_1" "chargeable" "pi_1")))
           (source_object "src_1" "chargeable" "pi_1") (VStr "source.chargeable")
           (VObj [("paymentIntent", VStr "pi_1")]) (VStr "pi_1") (VStr "src_1") "src_1"
           (intent "pi_1" "requires_payment_method")
           (intent "pi_1" "succeeded") (intent "pi_1" "succeeded")
           demo_store demo_store
           (set_status "pi_1" "succeeded" demo_store)
           (set_status "pi_1" "succeeded" demo_store));
    try reflexivity.
  - delivered.
  - discriminate.
Defined.

(** Each route throws on a request without a body. *)
Lemma routes_throw_without_body_witness :
  exists prop,
    post_update_currency (E := demo_env) (post "pi_1" VUndefined) demo_store
    = (Throw (TypeError VUndefined prop), demo_store, []).
Proof.
  apply (routes_throw_without_body (E := demo_env) post_update_currency
           (post "pi_1" VUndefined) demo_store).
  - right. right. right. right. left. reflexivity.
  - left. reflexivity.
Defined.

(** The intent created for the order of the demo carries its metadata. *)
Lemma create_carries_the_correlation_metadata_witness :
  let params :=
    create_params (E := demo_env) 2000 (VStr "usd") (VStr "Shirt") (VStr "c_1")
      (VStr "p_1") (VNum 2) in
  get params "metadata"
  = Ok (VObj [("campaign_id", VStr "c_1"); ("product_id", VStr "p_1");
              ("quantity", VNum 2)])
  /\ get params "description" = Ok (VStr "Shirt")
  /\ get params "currency" = Ok (VStr "usd").
Proof.
  intros params.
  apply (create_carries_the_correlation_metadata (E := demo_env) (post "" order_body)
           [("currency", VStr "usd"); ("price", VNum 10.00); ("quantity", VNum 2);
            ("productName", VStr "Shirt"); ("campaignId", VStr "c_1");
            ("productId", VStr "p_1")]
           demo_store params).
  - reflexivity.
  - left. reflexivity.
Defined.

(** A price that parsed JSON cannot convert to a number: both of its
    conversions are own properties, and no functions. *)
Lemma create_answers_500_on_a_failed_conversion_witness :
  post_payment_intents (E := strict_env)
    (post "" (VObj [("price", VObj [("valueOf", VNum 1); ("toString", VNum 1)]);
                    ("quantity", VNum 2)]))
    demo_store
  = (Ok {| res_status := 500;
           res_body := JsonError "Cannot convert object to primitive value" |},
     demo_store,
     [ConsoleLogError
        (TypeError (VObj [("valueOf", VNum 1); ("toString", VNum 1)]) "toString")]).
Proof.
  apply (create_answers_500_on_a_failed_conversion (E := strict_env)
           (post "" (VObj [("price", VObj [("valueOf", VNum 1); ("toString", VNum 1)]);
                           ("quantity", VNum 2)]))
           [("price", VObj [("valueOf", VNum 1); ("toString", VNum 1)]);
            ("quantity", VNum 2)]
           (TypeError (VObj [("valueOf", VNum 1); ("toString", VNum 1)]) "toString")
           demo_store);
    reflexivity.
Defined.

(** An order without a price asks for the amount NaN. *)
Lemma create_without_price_or_quantity_asks_for_nan_witness :
  exists params : value,
    hd_error (effects (post_payment_intents (E := demo_env)
                         (post "" (VObj [("currency", VStr "usd"); ("quantity", VNum 2)]))
                         demo_store))
    = Some (StripeCall (PaymentIntentsCreate params))
    /\ get params "amount" = Ok (VNum nan).
Proof.
  apply (create_without_price_or_quantity_asks_for_nan (E := demo_env)
           (post "" (VObj [("currency", VStr "usd"); ("quantity", VNum 2)]))
           [("currency", VStr "usd"); ("quantity", VNum 2)] nan 2%float demo_store).
  - reflexivity.
  - reflexivity.
  - reflexivity.
  - left. reflexivity.
Defined.

(** Three items at 5.00 for the intent [pi_1]. *)
Lemma update_quantity_updates_amount_and_metadata_witness :
  post_update_quantity (E := demo_env)
    (post "pi_1" (VObj [("price", VNum 5); ("quantity", VNum 3);
                        ("campaignId", VStr "c_1"); ("productId", VStr "p_1")]))
    demo_store
  = (Ok {| res_status := 200;
           res_body := JsonPaymentIntent (intent "pi_1" "requires_payment_method") |},
     demo_store,
     [StripeCall (PaymentIntentsUpdate (VStr "pi_1")
        (VObj [("amount", VNum 1500);
               ("metadata", VObj [("campaign_id", VStr "c_1"); ("product_id", VStr "p_1");
                                  ("quantity", VNum 3)])]))]).
Proof.
  exact (update_quantity_updates_amount_and_metadata (E := demo_env)
           (post "pi_1" (VObj [("price", VNum 5); ("quantity", VNum 3);
                               ("campaignId", VStr "c_1"); ("productId", VStr "p_1")]))
           [("price", VNum 5); ("quantity", VNum 3);
            ("campaignId", VStr "c_1"); ("productId", VStr "p_1")]
           5%float 3%float demo_store eq_refl eq_refl eq_refl).
Defined.

(** The empty basket, a basket that is no array, and a rejected listing. *)
Lemma amount_of_degenerate_baskets_witness :
  calculatePaymentAmount (E := demo_env) (VArr []) demo_store
  = (Ok 0%float, demo_store, [ProductsList])
  /\ calculatePaymentAmount (E := demo_env) (VStr "sku_shirt") demo_store
     = (Throw (TypeError (VStr "sku_shirt") "reduce"), demo_store, [ProductsList])
  /\ calculatePaymentAmount (E := offline_env) (VArr []) demo_store
     = (Throw (Rejected "inventory offline"), demo_store, [ProductsList]).
Proof.
  destruct (amount_of_degenerate_baskets (E := demo_env) (VArr []) demo_store)
    as (_ & Hempty & _ & _).
  destruct (amount_of_degenerate_baskets (E := demo_env) (VStr "sku_shirt") demo_store)
    as (_ & _ & Hnot & _).
  destruct (amount_of_degenerate_baskets (E := offline_env) (VArr []) demo_store)
    as (_ & _ & _ & Hrejected).
  split; [|split].
  - exact (Hempty _ demo_store eq_refl eq_refl).
  - apply (Hnot _ demo_store eq_refl). intros elems. discriminate.
  - exact (Hrejected _ demo_store eq_refl).
Defined.

(** Two shirts with express shipping for the intent [pi_1]. *)
Lemma shipping_change_adds_the_shipping_cost_witness :
  post_shipping_change (E := demo_env)
    (post "pi_1" (VObj [("items", VArr [basket_item "sku_shirt" 2]);
                        ("shippingOption", VObj [("id", VStr "express")])]))
    demo_store
  = (Ok {| res_status := 200;
           res_body := JsonPaymentIntent (intent "pi_1" "requires_payment_method") |},
     demo_store,
     [ProductsList;
      StripeCall (PaymentIntentsUpdate (VStr "pi_1") (VObj [("amount", VNum 3500)]))]).
Proof.
  apply (shipping_change_adds_the_shipping_cost (E := demo_env)
           (post "pi_1" (VObj [("items", VArr [basket_item "sku_shirt" 2]);
                               ("shippingOption", VObj [("id", VStr "express")])]))
           [("items", VArr [basket_item "sku_shirt" 2]);
            ("shippingOption", VObj [("id", VStr "express")])]
           [basket_item "sku_shirt" 2] _
           [({| sku_id := "sku_shirt"; sku_price := 1500 |}, 2%float)]
           (VStr "express") 500%float demo_store demo_store eq_refl eq_refl eq_refl);
    try reflexivity.
  repeat constructor.
  exists (VStr "sku_shirt"), (VNum 2). repeat split.
Defined.

(** An unknown sku, and an unknown shipping option. *)
Lemma shipping_change_lookup_failure_updates_nothing_witness :
  (exists e,
      post_shipping_change (E := demo_env)
        (post "pi_1" (VObj [("items", VArr [basket_item "sku_unknown" 1]);
                            ("shippingOption", VObj [("id", VStr "express")])]))
        demo_store
      = (Throw e, demo_store, [ProductsList]))
  /\ post_shipping_change (E := demo_env)
       (post "pi_1" (VObj [("items", VArr [basket_item "sku_shirt" 2]);
                           ("shippingOption", VObj [("id", VStr "overnight")])]))
       demo_store
     = (Throw (TypeError VUndefined "amount"), demo_store, [ProductsList]).
Proof.
  destruct (shipping_change_lookup_failure_updates_nothing (E := demo_env)
              (post "pi_1" (VObj [("items", VArr [basket_item "sku_unknown" 1]);
                                  ("shippingOption", VObj [("id", VStr "express")])]))
              [("items", VArr [basket_item "sku_unknown" 1]);
               ("shippingOption", VObj [("id", VStr "express")])]
              [basket_item "sku_unknown" 1] _ demo_store demo_store
              eq_refl eq_refl eq_refl) as [Hitem _].
  destruct (shipping_change_lookup_failure_updates_nothing (E := demo_env)
              (post "pi_1" (VObj [("items", VArr [basket_item "sku_shirt" 2]);
                                  ("shippingOption", VObj [("id", VStr "overnight")])]))
              [("items", VArr [basket_item "sku_shirt" 2]);
               ("shippingOption", VObj [("id", VStr "overnight")])]
              [basket_item "sku_shirt" 2] _ demo_store demo_store
              eq_refl eq_refl eq_refl) as [_ Hcost].
  split.
  - apply (Hitem (basket_item "sku_unknown" 1)).
    + left. reflexivity.
    + intros parent H. injection H as <-. reflexivity.
  - apply (Hcost [({| sku_id := "sku_shirt"; sku_price := 1500 |}, 2%float)]
                 (VStr "overnight")).
    + repeat constructor. exists (VStr "sku_shirt"), (VNum 2). repeat split.
    + reflexivity.
    + reflexivity.
Defined.

(** The change of shipping of a malformed basket throws before any call. *)
Lemma guarded_routes_throw_before_any_call_witness :
  outcome (post_shipping_change (E := demo_env)
             (post "pi_1" (VObj [("items", VStr "sku_shirt")])) demo_store)
  = Throw (TypeError (VStr "sku_shirt") "reduce")
  /\ filter is_stripe_call
       (effects (post_shipping_change (E := demo_env)
                   (post "pi_1" (VObj [("items", VStr "sku_shirt")])) demo_store))
     = [].
Proof.
  split; [reflexivity|].
  apply (guarded_routes_throw_before_any_call (E := demo_env) post_shipping_change
           (post "pi_1" (VObj [("items", VStr "sku_shirt")])) demo_store
           (TypeError (VStr "sku_shirt") "reduce")).
  - right. right. left. reflexivity.
  - reflexivity.
Defined.

(** The status of the intent [pi_2] of the demo. *)
Lemma status_route_reports_status_and_error_witness :
  get_status (E := demo_env) (post "pi_2" VUndefined) demo_store
  = (Ok {| res_status := 200; res_body := JsonStatus "succeeded" None |}, demo_store,
     [StripeCall (PaymentIntentsRetrieve (VStr "pi_2"))]).
Proof.
  destruct (status_route_reports_status_and_error (E := demo_env)
              (post "pi_2" VUndefined) demo_store) as (_ & _ & Hrun).
  exact (Hrun (intent "pi_2" "succeeded") demo_store eq_refl).
Defined.

(** The checkout of the order of the demo, from the first product. *)
Lemma checkout_session_is_created_from_the_body_witness :
  exists params : value,
    post_create_checkout_session (E := demo_env)
      (post "" (VObj [("currency", VStr "usd"); ("price", VNum 10.00);
                      ("quantity", VNum 2); ("campaignId", VStr "c_1");
                      ("productIndex", VStr "0")]))
      demo_store
    = (Ok {| res_status := 200;
             res_body := JsonUrl (VStr "https://checkout.stripe.com/pay/cs_test_1") |},
       demo_store, [StripeCall (CheckoutSessionsCreate params)])
    /\ get params "cancel_url"
       = Ok (VStr "https://brands.tempoplatform.com/campaign/c_1/product/0").
Proof.
  destruct (checkout_session_is_created_from_the_body (E := demo_env)
              (post "" (VObj [("currency", VStr "usd"); ("price", VNum 10.00);
                              ("quantity", VNum 2); ("campaignId", VStr "c_1");
                              ("productIndex", VStr "0")]))
              [("currency", VStr "usd"); ("price", VNum 10.00);
               ("quantity", VNum 2); ("campaignId", VStr "c_1");
               ("productIndex", VStr "0")]
              10.00%float "c_1" "0" demo_store eq_refl eq_refl eq_refl eq_refl)
    as (params & line & price_data & Hrun & _ & _ & Hcancel & _).
  exists params. split; [exact Hrun | exact Hcancel].
Defined.
